(** * Report2BQ scheduler helper: the two [Scheduler] classes

    Shallow embedding of
    - [src/appengine/classes/scheduler.py] (module [Appengine]) and
    - [src/classes/scheduler.py]           (module [Classes]),
    the client that derives a Cloud Scheduler job from a flat [args]
    dictionary and lists, gets, creates, deletes, pauses and resumes jobs
    through the scheduler's REST surface.

    Logging, the [Credentials] object and the construction of the
    service client ([DiscoverService.get_service], [os.environ]) belong
    to the platform and are left out: every operation starts from a
    client that is ready, and the [credentials] arguments are dropped. *)

From Stdlib Require Import Ascii.
From stdpp Require Import gmap strings list fin_maps pretty.

Local Open Scope string_scope.
Local Open Scope list_scope.

(** ** Python values *)

(** The values that flow through [args], the attribute mapping, the job
    specification and the JSON bodies exchanged with the service:
    [None], booleans, integers, strings, lists and string-keyed dicts. *)
#[warnings="-register-all"]
Inductive pyval : Type :=
| PNone
| PBool (b : bool)
| PInt (z : Z)
| PStr (s : string)
| PList (l : list pyval)
| PDict (d : gmap string pyval).

(** Truth value of an object, as tested by [if x], [not x], [x or y]. *)
Definition truthy (v : pyval) : bool :=
  match v with
  | PNone => false
  | PBool b => b
  | PInt z => negb (z =? 0)%Z
  | PStr s => negb (String.eqb s "")
  | PList l => match l with [] => false | _ => true end
  | PDict d => negb (bool_decide (d = ∅))
  end.

(** [x or y] *)
Definition py_or (x y : pyval) : pyval := if truthy x then x else y.

(** [d.get(k)] and [d.get(k, default)] on a dict. *)
Definition dict_get (d : gmap string pyval) (k : string) : pyval :=
  default PNone (d !! k).
Definition dict_get_or (d : gmap string pyval) (k : string) (dflt : pyval) : pyval :=
  default dflt (d !! k).

(** [v == s] for a string [s]: only an equal string compares equal. *)
Definition eq_str (v : pyval) (s : string) : bool :=
  match v with
  | PStr s' => String.eqb s' s
  | _ => false
  end.

(** ** What the modules import from outside [src/] *)

(** Two names the code uses are defined neither in [src/] nor in this
    file's model of Python: the built-in [repr] of a list or dict (it
    depends on the insertion order of a dict and on string quoting), and
    the value of the enum member [Type.SA360_RPT] of
    [classes.report_type].  Both are parameters of the development. *)
Class Env : Type := {
  repr : pyval → string;
  SA360_RPT_value : string
}.

(** [str(v)], which is also what an f-string field [{v}] produces. *)
Definition str `{Env} (v : pyval) : string :=
  match v with
  | PNone => "None"
  | PBool true => "True"
  | PBool false => "False"
  | PInt z => pretty z
  | PStr s => s
  | PList _ | PDict _ => repr v
  end.

(** [random.seed(uuid.uuid4()); random.randrange(start, stop)]: one
    element of [range(start, stop)], picked by a fresh draw. *)
Definition randrange (draw : N) (start stop : Z) : Z :=
  (start + Z.of_N draw `mod` (stop - start))%Z.

(** ** Exceptions, the remote service and the call monad *)

Inductive exn : Type :=
| HttpError (content : option pyval)
| JSONDecodeError
| AttributeError
| KeyError
| IndexError
| TypeError.

(** Requests of the Cloud Scheduler REST surface, with their keyword
    arguments. *)
Inductive request : Type :=
| locations_list (name : string)
| jobs_list (parent : string) (pageToken : pyval)
| jobs_get (name : string)
| jobs_delete (name : string)
| jobs_resume (name : string)
| jobs_pause (name : string)
| jobs_create (parent : string) (body : gmap string pyval).

(** What the service answers.  A list response omits its array when it
    is empty; a location is represented by its ['locationId'].  The
    content of a failure is represented by what [json.loads] makes of it
    ([None]: the content is not JSON text). *)
Inductive reply : Type :=
| Locations (locations : option (list pyval))
| Jobs (jobs : option (list pyval)) (nextPageToken : option pyval)
| Resource (body : pyval)
| Failed (content : option pyval).

(** The remote side is a script of replies, consumed one per request;
    [issued] is the log of the requests sent so far. *)
Record world : Type := World {
  replies : list reply;
  issued : list request
}.

Inductive result (A : Type) : Type :=
| Ret (a : A)
| Raise (e : exn)
| NoReply.
Arguments Ret {A} a.
Arguments Raise {A} e.
Arguments NoReply {A}.

Definition M (A : Type) : Type := world → result A * world.

Global Instance M_ret : MRet M := λ A a w, (Ret a, w).
Global Instance M_bind : MBind M := λ A B f m w,
  match m w with
  | (Ret a, w') => f a w'
  | (Raise e, w') => (Raise e, w')
  | (NoReply, w') => (NoReply, w')
  end.
Definition ret {A} (a : A) : M A := mret a.
Definition raise {A} (e : exn) : M A := λ w, (Raise e, w).

(** [try: m  except HttpError as error: h error.content] *)
Definition try_except_HttpError {A} (m : M A) (h : option pyval → M A) : M A :=
  λ w, match m w with
       | (Raise (HttpError content), w') => h content w'
       | r => r
       end.

(** One remote call: the request is logged and the next scripted reply
    is taken; a failure reply is raised as [HttpError]. *)
Definition execute (req : request) : M reply :=
  λ w, let log := issued w ++ [req] in
       match replies w with
       | [] => (NoReply, World [] log)
       | Failed content :: rest => (Raise (HttpError content), World rest log)
       | r :: rest => (Ret r, World rest log)
       end.

(** [json.loads(error.content)] *)
Definition json_loads (content : option pyval) : M pyval :=
  match content with
  | Some e => ret e
  | None => raise JSONDecodeError
  end.

(** [v[k]] for a string key. *)
Definition subscript (v : pyval) (k : string) : M pyval :=
  match v with
  | PDict d => match d !! k with Some x => ret x | None => raise KeyError end
  | _ => raise TypeError
  end.

(** [v.get(k, dflt)]: only dicts have a [get]. *)
Definition get_or (v : pyval) (k : string) (dflt : pyval) : M pyval :=
  match v with
  | PDict d => ret (dict_get_or d k dflt)
  | _ => raise AttributeError
  end.

(** [l[-1]] *)
Definition last_item (l : list pyval) : M pyval :=
  match last l with
  | Some x => ret x
  | None => raise IndexError
  end.

Definition no_reply {A} : M A := λ w, (NoReply, w).

(** [v == w] on the values above ([True == 1] and [False == 0] as in
    Python; lists element by element, dicts key by key). *)
Fixpoint py_eq (v w : pyval) {struct v} : bool :=
  match v, w with
  | PNone, PNone => true
  | PBool a, PBool b => bool_decide (a = b)
  | PBool a, PInt z | PInt z, PBool a => (z =? (if a then 1 else 0))%Z
  | PInt a, PInt b => (a =? b)%Z
  | PStr a, PStr b => String.eqb a b
  | PList a, PList b =>
      (fix go (a b : list pyval) {struct a} : bool :=
         match a, b with
         | [], [] => true
         | x :: a', y :: b' => py_eq x y && go a' b'
         | _, _ => false
         end) a b
  | PDict a, PDict b =>
      bool_decide (size a = size b) &&
      map_fold (λ k x acc,
                acc && match b !! k with Some y => py_eq x y | None => false end)
               true a
  | _, _ => false
  end.

(** [list(filter(p, l))] for a predicate that may raise. *)
Fixpoint filterM (p : pyval → M bool) (l : list pyval) : M (list pyval) :=
  match l with
  | [] => ret []
  | j :: l' =>
      keep ← p j;
      rest ← filterM p l';
      ret (if (keep : bool) then j :: rest else rest)
  end.

(** The lambda that [list_jobs] hands to [filter], in both modules:
    [j.get('pubsubTarget', {}).get('attributes', {}).get('email', '') == email] *)
Definition email_filter (email : pyval) (j : pyval) : M bool :=
  pubsubTarget ← get_or j "pubsubTarget" (PDict ∅);
  attributes ← get_or pubsubTarget "attributes" (PDict ∅);
  e ← get_or attributes "email" (PStr "");
  ret (py_eq e email).

(** What [process] hands back to its caller. *)
Inductive returned : Type :=
| ReturnNone
| ReturnStr (s : string)
| ReturnList (l : list pyval)
| ReturnPair (success : bool) (v : pyval).

Definition newline : string := String "010"%char EmptyString.

(** The local variables of the ['create'] branch of [process] once the
    selector chain has run; [args_after] is [args] as the branch leaves
    it. *)
Record locals : Type := Locals {
  minute : pyval;
  hour : pyval;
  action : string;
  topic : string;
  product : string;
  _type : string;
  _attrs : gmap string pyval;
  args_after : gmap string pyval
}.

(** [d.update(new)] *)
Definition update (d new : gmap string pyval) : gmap string pyval := new ∪ d.

Section shared.
Context `{Env}.

(** [f"{job['name']}: {job.get('description') or 'No description.'}<br/>"] *)
Definition job_line (job : pyval) : M string :=
  name ← subscript job "name";
  description ← get_or job "description" PNone;
  ret (str name +:+ ": " +:+
       str (py_or description (PStr "No description.")) +:+ "<br/>").

(** [f'ERROR!\n{error["error"]["message"]}'] *)
Definition error_text (error : pyval) : M returned :=
  e ← subscript error "error";
  message ← subscript e "message";
  ret (ReturnStr ("ERROR!" +:+ newline +:+ str message)).

(** Modelled from the spec: [Fetcher.fetch] ([classes/__init__.py]) is
    not under [src/].  By sections 2 and 7 of the spec a request is
    built, one remote method is called and its result is interpreted,
    with no local retry: the request is issued once and a failure
    reaches the caller. *)
Definition fetch (req : request) : M reply := execute req.

(** The body of the [while True] loop of [list_jobs], in both modules.
    Every turn consumes one scripted reply, so [fuel] larger than the
    script never runs out. *)
Fixpoint fetch_pages (fuel : nat) (parent : string) (token : pyval)
    (jobs : list pyval) : M (list pyval) :=
  match fuel with
  | O => no_reply
  | S fuel' =>
      _jobs ← fetch (jobs_list parent token);
      match _jobs with
      | Jobs js nextPageToken =>
          let jobs := jobs ++ default [] js in
          match nextPageToken with
          | None => ret jobs
          | Some token => fetch_pages fuel' parent token jobs
          end
      | _ => no_reply
      end
  end.

(** [token = None; jobs = []; while True: ...] *)
Definition while_True (parent : string) : M (list pyval) :=
  λ w, fetch_pages (S (length (replies w))) parent PNone [] w.

(** The job specification that [process] assembles from its locals, the
    same dict literal in both modules. *)
Definition job_of (l : locals) : gmap string pyval :=
  let args := args_after l in
  let name := action l +:+ "-" +:+ product l +:+ "-" +:+ str (dict_get args "report_id") in
  let schedule := str (minute l) +:+ " " +:+ str (hour l) +:+ " * * *" in
  {[ "description" := dict_get args "description";
     "timeZone" := py_or (dict_get args "timezone") (PStr "UTC");
     "api_key" := dict_get args "api_key";
     "name" := PStr name;
     "schedule" := PStr schedule;
     "topic" := PStr (topic l);
     "attributes" := PDict (_attrs l) ]}.

(** The attribute mapping before the selector chain, and the minute. *)
Definition base_attrs (args : gmap string pyval) : gmap string pyval :=
  {[ "email" := dict_get args "email";
     "project" := dict_get args "project";
     "force" := PStr (str (dict_get args "force"));
     "infer_schema" := PStr (str (dict_get args "infer_schema"));
     "append" := PStr (str (dict_get args "append")) ]}.

Definition pick_minute (draw : N) (args : gmap string pyval) : pyval :=
  if truthy (dict_get args "minute") then dict_get args "minute"
  else PInt (randrange draw 0 59).

End shared.

(** ** google.cloud.scheduler.CloudSchedulerClient *)
Module CloudSchedulerClient.
Section paths.
Context `{Env}.

(** Modelled from the spec: the path helpers of the client library are
    not under [src/].  Section 6 of the spec gives the job naming
    convention [projects/{project}/locations/{location}/jobs/{job}];
    the parent and project paths are its prefixes, as in the copies
    that [src/appengine/classes/scheduler.py] keeps of the three
    helpers. *)
Definition project_path (project : pyval) : string :=
  "projects/" +:+ str project.

(** Modelled from the spec: see [project_path]. *)
Definition location_path (project location : pyval) : string :=
  "projects/" +:+ str project +:+ "/locations/" +:+ str location.

(** Modelled from the spec: see [project_path]. *)
Definition job_path (project location job : pyval) : string :=
  "projects/" +:+ str project +:+ "/locations/" +:+ str location +:+
  "/jobs/" +:+ str job.

End paths.
End CloudSchedulerClient.

(** ** src/appengine/classes/scheduler.py *)
Module Appengine.
Section scheduler.
Context `{Env}.

(** [Scheduler.job_path], [location_path] and [project_path]. *)
Definition job_path (project location job : pyval) : string :=
  "projects/" +:+ str project +:+ "/locations/" +:+ str location +:+
  "/jobs/" +:+ str job.

Definition location_path (project location : pyval) : string :=
  "projects/" +:+ str project +:+ "/locations/" +:+ str location.

Definition project_path (project : pyval) : string :=
  "projects/" +:+ str project.

Definition list_locations (project : pyval) : M (list pyval) :=
  locations_response ← fetch (locations_list (project_path project));
  match locations_response with
  | Locations (Some locations) => ret locations
  | Locations None => raise KeyError
  | _ => no_reply
  end.

(** [if not location: locations = self.list_locations(...);
    location = locations[-1]], the opening of every operation. *)
Definition location_or_last (project location : pyval) : M pyval :=
  if negb (truthy location) then
    locations ← list_locations project;
    last_item locations
  else ret location.

Definition list_jobs (project location email : pyval) : M (list pyval) :=
  location ← location_or_last project location;
  jobs ← while_True (CloudSchedulerClient.location_path project location);
  if truthy email && truthy (PList jobs)
  then filterM (email_filter email) jobs
  else ret jobs.

Definition delete_job (job_id project location : pyval) : M (bool * pyval) :=
  location ← location_or_last project location;
  try_except_HttpError
    (_ ← execute (jobs_delete (CloudSchedulerClient.job_path project location job_id));
     ret (true, PNone))
    (λ content, e ← json_loads content; ret (false, e)).

Definition get_job (job_id project location : pyval) : M (bool * pyval) :=
  location ← location_or_last project location;
  try_except_HttpError
    (job ← execute (jobs_get (CloudSchedulerClient.job_path project location job_id));
     match job with
     | Resource job => ret (true, job)
     | _ => no_reply
     end)
    (λ content, e ← json_loads content; ret (false, e)).

Definition enable_job (job_id project location : pyval) (enable : bool)
    : M (bool * pyval) :=
  location ← location_or_last project location;
  let method := if enable then jobs_resume else jobs_pause in
  try_except_HttpError
    (_ ← execute (method (CloudSchedulerClient.job_path project location job_id));
     ret (true, PNone))
    (λ content, e ← json_loads content; ret (false, e)).

(** The request body that [create_job] builds. *)
Definition create_body (project location : pyval) (job : gmap string pyval)
    : gmap string pyval :=
  let _target : gmap string pyval :=
    {[ "topicName" :=
         PStr ("projects/" +:+ str project +:+ "/topics/" +:+
               str (dict_get_or job "topic" (PStr "")));
       "attributes" := dict_get_or job "attributes" (PStr "") ]} in
  {[ "name" :=
       PStr (CloudSchedulerClient.job_path project location
               (dict_get_or job "name" (PStr "")));
     "description" := dict_get_or job "description" (PStr "");
     "schedule" := dict_get_or job "schedule" (PStr "");
     "timeZone" := dict_get_or job "timezone" (PStr "");
     "pubsubTarget" := PDict _target ]}.

Definition create_job (project location : pyval) (job : gmap string pyval)
    : M unit :=
  location ← location_or_last project location;
  let _parent := CloudSchedulerClient.location_path project location in
  _ ← execute (jobs_create _parent (create_body project location job));
  ret tt.

(** The selector chain of the ['create'] branch. *)
Definition derive (draw : N) (args : gmap string pyval) : locals :=
  let _attrs := base_attrs args in
  let minute := pick_minute draw args in
  if truthy (dict_get args "sa360_url") then
    {| minute := minute;
       product := "sa360"; _type := "sa360";
       hour := if truthy (dict_get args "hour")
               then dict_get args "hour" else PStr "3";
       action := "fetch";
       topic := "report2bq-trigger";
       _attrs := update _attrs
                   {[ "sa360_url" := dict_get args "sa360_url";
                      "type" := PStr "sa360" ]};
       args_after := args |}
  else if truthy (dict_get args "sa360_id") then
    {| minute := minute;
       product := SA360_RPT_value; _type := SA360_RPT_value;
       hour := dict_get_or args "hour" (PStr "*");
       action := "run";
       topic := "report-runner";
       _attrs := update _attrs
                   {[ "report_id" := dict_get args "sa360_id";
                      "type" := PStr SA360_RPT_value ]};
       args_after := <["report_id" := dict_get args "sa360_id"]> args |}
  else if truthy (dict_get args "adh_customer") then
    {| minute := minute;
       product := "adh"; _type := "adh";
       hour := if truthy (dict_get args "hour")
               then dict_get args "hour" else PStr "2";
       action := "run";
       topic := "report2bq-trigger";
       _attrs := update _attrs
                   {[ "adh_customer" := dict_get args "adh_customer";
                      "adh_query" := dict_get args "adh_query";
                      "api_key" := dict_get args "api_key";
                      "days" := dict_get args "days";
                      "type" := PStr "adh" ]};
       args_after := args |}
  else
    let '(hour, action, topic) :=
      if truthy (dict_get args "runner") then
        (if truthy (dict_get args "hour")
         then dict_get args "hour" else PStr "1",
         "run", "report-runner")
      else (PStr "*", "fetch", "report2bq-trigger") in
    if truthy (dict_get args "profile") then
      {| minute := minute; hour := hour; action := action; topic := topic;
         product := "cm"; _type := "cm";
         _attrs := update _attrs
                     {[ "profile" := dict_get args "profile";
                        "cm_id" := dict_get args "report_id";
                        "type" := PStr "cm" ]};
         args_after := args |}
    else
      {| minute := minute; hour := hour; action := action; topic := topic;
         product := "dv360"; _type := "dv360";
         _attrs := update _attrs
                     {[ "dv360_id" := dict_get args "report_id";
                        "type" := PStr "dv360" ]};
         args_after := args |}.

Definition process (draw : N) (args : gmap string pyval) : M returned :=
  let _action := dict_get args "action" in
  let _project := dict_get args "project" in
  let _email := dict_get args "email" in
  let _html := dict_get_or args "html" (PBool true) in
  locations ← list_locations _project;
  _location ← last_item locations;
  if py_eq _action (PStr "list") then
    jobs ← list_jobs _project _location _email;
    if truthy _html then
      lines ← mapM job_line jobs;
      ret (ReturnStr (String.concat "" lines))
    else ret (ReturnList jobs)
  else if py_eq _action (PStr "get") then
    '(success, job) ← get_job (dict_get args "job_id") _project _location;
    ret (ReturnPair success job)
  else if py_eq _action (PStr "delete") then
    '(success, error) ← delete_job (dict_get args "job_id") _project _location;
    if (success : bool) then ret (ReturnStr "OK") else error_text error
  else if py_eq _action (PStr "enable") then
    '(success, error) ← enable_job (dict_get args "job_id") _project _location true;
    if (success : bool) then ret (ReturnStr "OK") else error_text error
  else if py_eq _action (PStr "disable") then
    '(success, error) ← enable_job (dict_get args "job_id") _project _location false;
    if (success : bool) then ret (ReturnStr "OK") else error_text error
  else if py_eq _action (PStr "create") then
    _ ← create_job _project _location (job_of (derive draw args));
    ret ReturnNone
  else ret ReturnNone.

End scheduler.
End Appengine.

(** ** src/classes/scheduler.py *)
Module Classes.

(** [list_jobs] returns [jobs] as it stands: the aggregated list, or the
    lazy [filter] object built over it. *)
Inductive iterable : Type :=
| a_list (jobs : list pyval)
| a_filter (email : pyval) (jobs : list pyval).

(** [list(it)]: the elements the iterable yields. *)
Definition elements (it : iterable) : M (list pyval) :=
  match it with
  | a_list jobs => ret jobs
  | a_filter email jobs => filterM (email_filter email) jobs
  end.

Section scheduler.
Context `{Env}.

(** [[f(job) for job in it]], the filter deciding on each job as the
    comprehension reaches it. *)
Fixpoint comprehension {B} (f : pyval → M B) (email : pyval) (jobs : list pyval)
    : M (list B) :=
  match jobs with
  | [] => ret []
  | job :: jobs' =>
      keep ← email_filter email job;
      if (keep : bool) then
        y ← f job;
        rest ← comprehension f email jobs';
        ret (y :: rest)
      else comprehension f email jobs'
  end.

Definition for_each {B} (f : pyval → M B) (it : iterable) : M (list B) :=
  match it with
  | a_list jobs => mapM f jobs
  | a_filter email jobs => comprehension f email jobs
  end.

Definition list_locations (project : pyval) : M (list pyval) :=
  locations_response ←
    fetch (locations_list (CloudSchedulerClient.project_path project));
  match locations_response with
  | Locations (Some locations) => ret locations
  | Locations None => raise KeyError
  | _ => no_reply
  end.

Definition list_jobs (project location email : pyval) : M iterable :=
  jobs ← while_True (CloudSchedulerClient.location_path project location);
  if truthy email && truthy (PList jobs)
  then ret (a_filter email jobs)
  else ret (a_list jobs).

Definition delete_job (job_id project location : pyval) : M (bool * pyval) :=
  try_except_HttpError
    (_ ← execute (jobs_delete (CloudSchedulerClient.job_path project location job_id));
     ret (true, PNone))
    (λ content, e ← json_loads content; ret (false, e)).

(** The request body that [create_job] builds. *)
Definition create_body (project location : pyval) (job : gmap string pyval)
    : gmap string pyval :=
  let _target : gmap string pyval :=
    {[ "topicName" :=
         PStr ("projects/" +:+ str project +:+ "/topics/" +:+
               str (dict_get_or job "topic" (PStr "")));
       "attributes" := dict_get_or job "attributes" (PStr "") ]} in
  {[ "name" :=
       PStr (CloudSchedulerClient.job_path project location
               (dict_get_or job "name" (PStr "")));
     "description" := dict_get_or job "description" (PStr "");
     "schedule" := dict_get_or job "schedule" (PStr "");
     "timeZone" := dict_get_or job "timezone" (PStr "");
     "pubsubTarget" := PDict _target ]}.

Definition create_job (project location : pyval) (job : gmap string pyval)
    : M unit :=
  let _parent := CloudSchedulerClient.location_path project location in
  _ ← execute (jobs_create _parent (create_body project location job));
  ret tt.

(** The selector chain of the ['create'] branch. *)
Definition derive (draw : N) (args : gmap string pyval) : locals :=
  let _attrs := base_attrs args in
  let minute := pick_minute draw args in
  if truthy (dict_get args "sa360_url") then
    {| minute := minute;
       product := "sa360"; _type := "sa360";
       hour := if truthy (dict_get args "hour")
               then dict_get args "hour" else PStr "3";
       action := "fetch";
       topic := "report2bq-trigger";
       _attrs := update _attrs
                   {[ "sa360_url" := dict_get args "sa360_url";
                      "type" := PStr "sa360" ]};
       args_after := args |}
  else if truthy (dict_get args "adh_customer") then
    {| minute := minute;
       product := "adh"; _type := "adh";
       hour := if truthy (dict_get args "hour")
               then dict_get args "hour" else PStr "2";
       action := "run";
       topic := "report2bq-trigger";
       _attrs := update _attrs
                   {[ "adh_customer" := dict_get args "adh_customer";
                      "adh_query" := dict_get args "adh_query";
                      "api_key" := dict_get args "api_key";
                      "days" := dict_get args "days";
                      "type" := PStr "adh" ]};
       args_after := args |}
  else
    let '(hour, action, topic) :=
      if truthy (dict_get args "runner") then
        (if truthy (dict_get args "hour")
         then dict_get args "hour" else PStr "1",
         "run", "rerport_runner")
      else (PStr "*", "fetch", "report2bq-trigger") in
    if truthy (dict_get args "profile") then
      {| minute := minute; hour := hour; action := action; topic := topic;
         product := "cm"; _type := "cm";
         _attrs := update _attrs
                     {[ "profile" := dict_get args "profile";
                        "cm_id" := dict_get args "report_id";
                        "type" := PStr "cm" ]};
         args_after := args |}
    else
      {| minute := minute; hour := hour; action := action; topic := topic;
         product := "dv360"; _type := "dbm";
         _attrs := update _attrs
                     {[ "dv360_id" := dict_get args "report_id";
                        "type" := PStr "dbm" ]};
         args_after := args |}.

Definition process (draw : N) (args : gmap string pyval) : M returned :=
  let _action := dict_get args "action" in
  let _project := dict_get args "project" in
  let _email := dict_get args "email" in
  locations ← list_locations _project;
  _location ← last_item locations;
  if py_eq _action (PStr "list") then
    jobs ← list_jobs _project _location _email;
    lines ← for_each job_line jobs;
    ret (ReturnStr (String.concat "" lines))
  else if py_eq _action (PStr "delete") then
    '(success, error) ← delete_job (dict_get args "job_id") _project _location;
    if (success : bool) then ret (ReturnStr "OK") else error_text error
  else if py_eq _action (PStr "create") then
    _ ← create_job _project _location (job_of (derive draw args));
    ret ReturnNone
  else ret ReturnNone.

End scheduler.
End Classes.

(** ** The documented mapping of the ['create'] branch *)

Section mapping.
Context `{Env}.
Variable args : gmap string pyval.

(** A field counts as supplied when [args.get(k)] is true, the test the
    selector chain applies. *)
Definition supplied (k : string) : bool := truthy (dict_get args k).

(** "hour defaults to [d]" *)
Definition hour_default (d : string) : pyval :=
  if supplied "hour" then dict_get args "hour" else PStr d.

(** The attribute mapping of [l] carries [k] with the value [v]. *)
Definition carries (l : locals) (k : string) (v : pyval) : Prop :=
  _attrs l !! k = Some v.

Definition sa360_row (l : locals) : Prop :=
  topic l = "report2bq-trigger" ∧ action l = "fetch" ∧
  hour l = hour_default "3" ∧
  carries l "sa360_url" (dict_get args "sa360_url") ∧
  carries l "type" (PStr "sa360").

Definition adh_row (l : locals) : Prop :=
  topic l = "report2bq-trigger" ∧ action l = "run" ∧
  hour l = hour_default "2" ∧
  carries l "adh_customer" (dict_get args "adh_customer") ∧
  carries l "adh_query" (dict_get args "adh_query") ∧
  carries l "api_key" (dict_get args "api_key") ∧
  carries l "days" (dict_get args "days") ∧
  carries l "type" (PStr "adh").

Definition runner_rows (l : locals) : Prop :=
  if supplied "runner"
  then action l = "run" ∧ hour l = hour_default "1"
  else action l = "fetch" ∧ topic l = "report2bq-trigger" ∧ hour l = PStr "*".

Definition report_rows (dv360_type : string) (l : locals) : Prop :=
  if supplied "profile"
  then carries l "profile" (dict_get args "profile") ∧
       carries l "cm_id" (dict_get args "report_id") ∧
       carries l "type" (PStr "cm")
  else carries l "dv360_id" (dict_get args "report_id") ∧
       carries l "type" (PStr dv360_type).

(** The mapping of claim C1, [dv360_type] being the type string of the
    module at hand. *)
Definition documented_mapping (dv360_type : string) (l : locals) : Prop :=
  if supplied "sa360_url" then sa360_row l
  else if supplied "adh_customer" then adh_row l
  else runner_rows l ∧ report_rows dv360_type l.

(** The branch that [src/appengine/classes/scheduler.py] adds for
    ['sa360_id']. *)
Definition sa360_id_row (l : locals) : Prop :=
  topic l = "report-runner" ∧ action l = "run" ∧
  hour l = dict_get_or args "hour" (PStr "*") ∧
  carries l "report_id" (dict_get args "sa360_id") ∧
  carries l "type" (PStr SA360_RPT_value).

(** The mapping of [src/appengine/classes/scheduler.py]: the documented
    one, with the ['sa360_id'] branch between ['sa360_url'] and
    ['adh_customer']. *)
Definition appengine_mapping (l : locals) : Prop :=
  if negb (supplied "sa360_url") && supplied "sa360_id"
  then sa360_id_row l
  else documented_mapping "dv360" l.

(** Exactly one of the [selectors] is supplied. *)
Definition exactly_one (selectors : list string) : Prop :=
  length (List.filter supplied selectors) = 1.

End mapping.

(** Claim C1 as it is written, for one module's selector chain and a
    reading of which fields are the selectors. *)
Definition mapping_as_claimed `{Env} (selectors : list string)
    (dv360_type : string) (derive : N → gmap string pyval → locals) : Prop :=
  ∀ draw args,
    py_eq (dict_get args "action") (PStr "create") = true →
    exactly_one args selectors →
    documented_mapping args dv360_type (derive draw args).

(** The selectors that claim C1 names, and the fields that the chain of
    [src/appengine/classes/scheduler.py] tests. *)
Definition named_selectors : list string :=
  ["sa360_url"; "adh_customer"; "runner"; "profile"].
Definition tested_selectors : list string :=
  ["sa360_url"; "sa360_id"; "adh_customer"; "runner"; "profile"].

(** An environment to run the model in: a placeholder for the [repr] of
    containers and a value for [Type.SA360_RPT]. *)
Definition sample_env : Env :=
  {| repr := λ _, "<container>"; SA360_RPT_value := "sa360_report" |}.

(** A profile report scheduled together with an SA360 report id, and an
    SA360 report id alone. *)
Definition args_profile_sa360_id : gmap string pyval :=
  {[ "action" := PStr "create"; "project" := PStr "my-project";
     "profile" := PStr "2895599"; "report_id" := PStr "757975";
     "sa360_id" := PStr "21700000001406786" ]}.
Definition args_sa360_id : gmap string pyval :=
  {[ "action" := PStr "create"; "project" := PStr "my-project";
     "sa360_id" := PStr "21700000001406786" ]}.

(** ** Comparing the two modules, and precedence among the selectors *)

(** What a derivation hands on to the job specification apart from the
    minute: topic, action, hour, type and the attribute mapping. *)
Definition observable (l : locals)
    : string * string * pyval * string * gmap string pyval :=
  (topic l, action l, hour l, _type l, _attrs l).

(** Claim C8 as it is written. *)
Definition same_derivation `{Env} : Prop :=
  ∀ draw args,
    py_eq (dict_get args "action") (PStr "create") = true →
    observable (Appengine.derive draw args) = observable (Classes.derive draw args).

(** Where the two modules agree (claim C8, amended): [a] is the
    derivation of [Appengine], [c] that of [Classes]. *)
Definition modules_agree (args : gmap string pyval) (a c : locals) : Prop :=
  action a = action c ∧ hour a = hour c ∧ minute a = minute c ∧
  product a = product c ∧
  (supplied args "sa360_url" || supplied args "adh_customer" ||
     negb (supplied args "runner") = true → topic a = topic c) ∧
  if supplied args "sa360_url" || supplied args "adh_customer" ||
     supplied args "profile"
  then _type a = _type c ∧ _attrs a = _attrs c
  else _type a = "dv360" ∧ _type c = "dbm" ∧
       _attrs c !! "type" = Some (PStr "dbm") ∧
       _attrs a = <["type" := PStr "dv360"]> (_attrs c).

(** The two dicts agree on every key outside [ks]. *)
Definition agree_off (ks : list string) (args args' : gmap string pyval) : Prop :=
  ∀ k, k ∉ ks → args !! k = args' !! k.

(** The selectors that come after the one that wins, and the attribute
    keys that only their branches write. *)
Definition later_selectors (args : gmap string pyval) : list string :=
  if supplied args "sa360_url" then ["adh_customer"; "runner"; "profile"]
  else if supplied args "adh_customer" then ["runner"; "profile"]
  else [].

Definition later_keys (args : gmap string pyval) : list string :=
  if supplied args "sa360_url"
  then ["adh_customer"; "adh_query"; "api_key"; "days";
        "profile"; "cm_id"; "dv360_id"]
  else if supplied args "adh_customer" then ["profile"; "cm_id"; "dv360_id"]
  else [].

Definition no_trace (ks : list string) (l : locals) : Prop :=
  Forall (λ k, _attrs l !! k = None) ks.

(** Claim C9 for one derivation [l] of [args], [l'] being the derivation
    of [args'] under another draw: the later selectors change nothing,
    leave no key behind, and the branch produced is the one of the
    first supplied selector. *)
Definition precedence (args : gmap string pyval) (l l' : locals)
    (branch : locals → Prop) : Prop :=
  observable l = observable l' ∧ no_trace (later_keys args) l ∧ branch l.

(** Plain report ids, and both ADH and runner supplied. *)
Definition args_report : gmap string pyval :=
  {[ "action" := PStr "create"; "project" := PStr "my-project";
     "email" := PStr "me@example.com"; "report_id" := PStr "757975" ]}.
Definition args_adh_runner : gmap string pyval :=
  {[ "action" := PStr "create"; "project" := PStr "my-project";
     "adh_customer" := PStr "1234"; "adh_query" := PStr "5678";
     "api_key" := PStr "key"; "days" := PInt 7;
     "runner" := PBool true; "report_id" := PStr "757975" ]}.

(** ** The minute of the schedule *)

(** Claim C10 as it is written. *)
Definition minute_as_claimed `{Env} (derive : N → gmap string pyval → locals)
    : Prop :=
  ∀ draw args,
    py_eq (dict_get args "action") (PStr "create") = true →
    (args !! "minute" = None →
     ∃ m, minute (derive draw args) = PInt m ∧ (0 ≤ m ≤ 58)%Z) ∧
    (∀ v, args !! "minute" = Some v → minute (derive draw args) = v).

(** Claim C10, amended, for one derivation [l] of [args]. *)
Definition minute_rule `{Env} (args : gmap string pyval) (l : locals) : Prop :=
  job_of l !! "schedule" =
    Some (PStr (str (minute l) +:+ " " +:+ str (hour l) +:+ " * * *")) ∧
  if supplied args "minute"
  then minute l = dict_get args "minute"
  else ∃ m, minute l = PInt m ∧ (0 ≤ m ≤ 58)%Z.

(** A job asked for on the hour. *)
Definition args_minute_0 : gmap string pyval :=
  {[ "action" := PStr "create"; "project" := PStr "my-project";
     "report_id" := PStr "757975"; "minute" := PInt 0 ]}.

(** ** Listing jobs *)

(** The ['email'] attribute of the pub/sub target of a job, [''] for a
    job that lacks the field. *)
Definition email_field (j : pyval) : pyval :=
  match j with
  | PDict d =>
      match d !! "pubsubTarget" with
      | Some (PDict t) =>
          match t !! "attributes" with
          | Some (PDict a) => default (PStr "") (a !! "email")
          | _ => PStr ""
          end
      | _ => PStr ""
      end
  | _ => PStr ""
  end.

(** A job as the service types it, as far as [list_jobs] reads it: an
    object whose ['pubsubTarget'], when present, is an object whose
    ['attributes'], when present, is an object. *)
Definition job_resource (j : pyval) : bool :=
  match j with
  | PDict d =>
      match d !! "pubsubTarget" with
      | None => true
      | Some (PDict t) =>
          match t !! "attributes" with
          | None | Some (PDict _) => true
          | _ => false
          end
      | _ => false
      end
  | _ => false
  end.

(** The jobs of [jobs] whose email field is [email], in their order. *)
Definition matching (email : string) (jobs : list pyval) : list pyval :=
  List.filter (λ j, eq_str (email_field j) email) jobs.

(** A page that announces a next page, as a reply. *)
Definition page_reply (p : option (list pyval) * pyval) : reply :=
  Jobs p.1 (Some p.2).

(** The jobs of a sequence of pages, a page without ['jobs'] giving
    none. *)
Definition jobs_of_pages (pages : list (option (list pyval))) : list pyval :=
  concat (map (default []) pages).

(** Two jobs of one owner around a job of somebody else and a job with
    an HTTP target. *)
Definition job_for (name email : string) : pyval :=
  PDict {[ "name" := PStr name;
           "pubsubTarget" :=
             PDict {[ "topicName" := PStr "projects/my-project/topics/report2bq-trigger";
                      "attributes" := PDict {[ "email" := PStr email ]} ]} ]}.
Definition job_http : pyval :=
  PDict {[ "name" := PStr "projects/my-project/locations/europe-west1/jobs/ping" ]}.
Definition sample_pages : list (option (list pyval) * pyval) :=
  [ (Some [job_for "fetch-dv360-1" "me@example.com"; job_http], PStr "page-2");
    (None, PStr "page-3") ].
Definition sample_last_page : option (list pyval) :=
  Some [job_for "run-cm-2" "you@example.com"; job_for "fetch-cm-3" "me@example.com"].
Definition sample_listing : world :=
  World (map page_reply sample_pages ++ [Jobs sample_last_page None]) [].

(** ** Failures of the remote call *)

(** The operations that call the service through [execute]. *)
Inductive operation : Type :=
| op_delete
| op_get
| op_enable (enable : bool)
| op_create (job : gmap string pyval).

(** One operation of [src/appengine/classes/scheduler.py] and what it
    returns. *)
Definition invoke `{Env} (op : operation) (job_id project location : pyval)
    : M returned :=
  match op with
  | op_delete =>
      '(success, e) ← Appengine.delete_job job_id project location;
      ret (ReturnPair success e)
  | op_get =>
      '(success, e) ← Appengine.get_job job_id project location;
      ret (ReturnPair success e)
  | op_enable enable =>
      '(success, e) ← Appengine.enable_job job_id project location enable;
      ret (ReturnPair success e)
  | op_create job =>
      _ ← Appengine.create_job project location job;
      ret ReturnNone
  end.

(** Claim C4 as it is written, for a failing call. *)
Definition failures_reported `{Env} : Prop :=
  ∀ op job_id project location e rest log,
    truthy location = true →
    (invoke op job_id project location (World (Failed (Some e) :: rest) log)).1 =
    Ret (ReturnPair false e).

(** What an operation with a [try ... except HttpError] makes of the
    reply: a failure is decoded and reported, anything else is a
    success. *)
Definition reported (on_success : reply → result (bool * pyval)) (r : reply)
    : result (bool * pyval) :=
  match r with
  | Failed (Some e) => Ret (false, e)
  | Failed None => Raise JSONDecodeError
  | r => on_success r
  end.

(** Claim C4, amended, for the reply [r] to the one request. *)
Definition reports_failures `{Env} (job_id project location : pyval)
    (r : reply) (rest : list reply) (log : list request) : Prop :=
  let w := World (r :: rest) log in
  let name := CloudSchedulerClient.job_path project location job_id in
  let done := λ _ : reply, Ret (true, PNone) in
  Appengine.delete_job job_id project location w =
    (reported done r, World rest (log ++ [jobs_delete name])) ∧
  Classes.delete_job job_id project location w =
    (reported done r, World rest (log ++ [jobs_delete name])) ∧
  Appengine.get_job job_id project location w =
    (reported (λ r, match r with
                    | Resource job => Ret (true, job)
                    | _ => NoReply
                    end) r,
     World rest (log ++ [jobs_get name])) ∧
  Appengine.enable_job job_id project location true w =
    (reported done r, World rest (log ++ [jobs_resume name])) ∧
  Appengine.enable_job job_id project location false w =
    (reported done r, World rest (log ++ [jobs_pause name])) ∧
  ∀ job,
    (Appengine.create_job project location job w).2 =
      World rest (log ++ [jobs_create
                            (CloudSchedulerClient.location_path project location)
                            (Appengine.create_body project location job)]) ∧
    (Classes.create_job project location job w).2 =
      World rest (log ++ [jobs_create
                            (CloudSchedulerClient.location_path project location)
                            (Classes.create_body project location job)]).

(** The error body of a job that does not exist. *)
Definition not_found : pyval :=
  PDict {[ "error" := PDict {[ "code" := PInt 404;
                               "message" := PStr "Job not found.";
                               "status" := PStr "NOT_FOUND" ]} ]}.

(** ** The request of [create_job] *)

Definition topicName (req : request) : option pyval :=
  match req with
  | jobs_create _ body =>
      match body !! "pubsubTarget" with
      | Some (PDict _target) => _target !! "topicName"
      | _ => None
      end
  | _ => None
  end.

Definition timeZone (req : request) : option pyval :=
  match req with
  | jobs_create _ body => body !! "timeZone"
  | _ => None
  end.

(** The fully-qualified job name that a request carries. *)
Definition job_name (req : request) : option pyval :=
  match req with
  | jobs_get name | jobs_delete name | jobs_resume name | jobs_pause name =>
      Some (PStr name)
  | jobs_create _ body => body !! "name"
  | _ => None
  end.

(** The requests that [m] adds to the log of [w]. *)
Definition sent {A} (m : M A) (w : world) : list request :=
  drop (length (issued w)) (issued (m w).2).

(** A job asked for in a time zone of its own. *)
Definition args_timezone : gmap string pyval :=
  {[ "action" := PStr "create"; "project" := PStr "my-project";
     "report_id" := PStr "757975"; "timezone" := PStr "Europe/London" ]}.
Definition one_location : list reply :=
  [Locations (Some [PStr "us-central1"; PStr "europe-west1"]);
   Resource (PDict ∅)].

(** The job names that the operations send, for claim C7: [name] is
    the fully-qualified name, [spec] a job dict for [create_job]. *)
Definition names_sent `{Env} (project location job : pyval)
    (spec : gmap string pyval) (name : string) (w : world) : Prop :=
  sent (Appengine.delete_job job project location) w = [jobs_delete name] ∧
  sent (Appengine.get_job job project location) w = [jobs_get name] ∧
  sent (Appengine.enable_job job project location true) w = [jobs_resume name] ∧
  sent (Appengine.enable_job job project location false) w = [jobs_pause name] ∧
  map job_name (sent (Appengine.create_job project location spec) w) =
    [Some (PStr name)] ∧
  sent (Classes.delete_job job project location) w = [jobs_delete name] ∧
  map job_name (sent (Classes.create_job project location spec) w) =
    [Some (PStr name)].

(** ** src/appengine/classes/services.py *)
Module Services.

Inductive Service : Type := SCHEDULER | DV360 | CM.

(** The value of an enum member. *)
Definition value (s : Service) : string :=
  match s with
  | SCHEDULER => "scheduler"
  | DV360 => "dv360"
  | CM => "cm"
  end.

Definition __str__ `{Env} (s : Service) : string := str (PStr (value s)).

Definition definition (s : Service) : gmap string pyval :=
  let defs : gmap string (gmap string pyval) :=
    {[ "scheduler" := {[ "serviceName" := PStr "cloudscheduler";
                         "version" := PStr "v1" ]};
       "cm" := {[ "serviceName" := PStr "dfareporting";
                  "version" := PStr "v3.3" ]};
       "dv360" := {[ "serviceName" := PStr "doubleclickbidmanager";
                     "version" := PStr "v1.1" ]} ]} in
  default ∅ (defs !! value s).

End Services.

(** ** What every branch of the selector chain keeps *)

(** The attributes that [process] sets before the chain, and the type:
    the flags are sent as strings. *)
Definition keeps_base_attrs `{Env} (args : gmap string pyval) (l : locals) : Prop :=
  _attrs l !! "email" = Some (dict_get args "email") ∧
  _attrs l !! "project" = Some (dict_get args "project") ∧
  _attrs l !! "force" = Some (PStr (str (dict_get args "force"))) ∧
  _attrs l !! "infer_schema" = Some (PStr (str (dict_get args "infer_schema"))) ∧
  _attrs l !! "append" = Some (PStr (str (dict_get args "append"))) ∧
  _attrs l !! "type" = Some (PStr (_type l)).

(** The entries of the job specification that do not depend on the
    module. *)
Definition common_entries : list string :=
  ["description"; "timeZone"; "api_key"; "name"; "schedule"].

(** A field of the body of a create request, and of its pub/sub
    target. *)
Definition body_field (k : string) (req : request) : option pyval :=
  match req with
  | jobs_create _ body => body !! k
  | _ => None
  end.

Definition target_field (k : string) (req : request) : option pyval :=
  match req with
  | jobs_create _ body =>
      match body !! "pubsubTarget" with
      | Some (PDict _target) => _target !! k
      | _ => None
      end
  | _ => None
  end.

(** An SA360 report scheduled by its id, with an hour entry that is
    there but empty. *)
Definition args_sa360_report : gmap string pyval :=
  {[ "action" := PStr "create"; "project" := PStr "my-project";
     "sa360_id" := PStr "21700000001406786"; "report_id" := PStr "757975";
     "hour" := PStr "" ]}.

(** ** What [process] does for each action *)

(** The actions that [process] knows, per module. *)
Definition appengine_actions : list string :=
  ["list"; "get"; "delete"; "enable"; "disable"; "create"].
Definition classes_actions : list string := ["list"; "delete"; "create"].

(** The create request that [process] sends for the locals [l] of the
    selector chain, after the request for the locations. *)
Definition sends_job `{Env} (project location : pyval)
    (args : gmap string pyval) (l : locals) (reqs : list request) : Prop :=
  length reqs = 2 ∧
  body_field "name" <$> reqs =
    [None;
     Some (PStr (CloudSchedulerClient.job_path project location
                   (PStr (action l +:+ "-" +:+ product l +:+ "-" +:+
                          str (dict_get (args_after l) "report_id")))))] ∧
  body_field "schedule" <$> reqs =
    [None;
     Some (PStr (str (minute l) +:+ " " +:+ str (hour l) +:+ " * * *"))] ∧
  body_field "description" <$> reqs = [None; Some (dict_get args "description")] ∧
  target_field "attributes" <$> reqs = [None; Some (PDict (_attrs l))].

(** What the caller of [process] gets from an action with a [try] for
    the reply [r] of the service: ['OK'], or the text of the error. *)
Definition text_answer `{Env} (r : reply) (w' : world)
    : result returned * world :=
  match r with
  | Failed (Some e) => error_text e w'
  | Failed None => (Raise JSONDecodeError, w')
  | _ => (Ret (ReturnStr "OK"), w')
  end.

(** A request to enable a job, to a module that has no such action. *)
Definition args_enable : gmap string pyval :=
  {[ "action" := PStr "enable"; "project" := PStr "my-project";
     "job_id" := PStr "fetch-dv360-757975" ]}.
Definition args_delete : gmap string pyval :=
  {[ "action" := PStr "delete"; "project" := PStr "my-project";
     "job_id" := PStr "fetch-dv360-757975" ]}.
Definition args_get : gmap string pyval :=
  {[ "action" := PStr "get"; "project" := PStr "my-project";
     "job_id" := PStr "fetch-dv360-757975" ]}.
Definition args_list : gmap string pyval :=
  {[ "action" := PStr "list"; "project" := PStr "my-project";
     "email" := PStr "me@example.com" ]}.
Definition two_locations : reply :=
  Locations (Some [PStr "us-central1"; PStr "europe-west1"]).

(** ** Operations without a location, and listings *)

(** The jobs of [jobs] whose email field equals [email], for any value
    of [email]. *)
Definition with_email (email : pyval) (jobs : list pyval) : list pyval :=
  List.filter (λ j, py_eq (email_field j) email) jobs.

(** A request to list the jobs on a parent. *)
Definition lists (parent : string) (req : request) : Prop :=
  ∃ token, req = jobs_list parent token.

(** A job whose target is [null], and a listing that has it. *)
Definition job_null_target : pyval :=
  PDict {[ "name" := PStr "projects/my-project/locations/europe-west1/jobs/odd";
           "pubsubTarget" := PNone ]}.
Definition odd_listing : world :=
  World [Jobs (Some [job_for "fetch-dv360-1" "me@example.com"; job_null_target])
           None] [].
Definition sample_listing_after : world :=
  World []
    (map (jobs_list "projects/my-project/locations/europe-west1")
       [PNone; PStr "page-2"; PStr "page-3"]).

(** * Properties *)

(** ** Python values *)

Lemma py_eq_str (v : pyval) (s : string) : py_eq v (PStr s) = eq_str v s.
Proof. destruct v as [| [] | | | |]; reflexivity. Qed.

Lemma eq_str_true (v : pyval) (s : string) : eq_str v s = true ↔ v = PStr s.
Proof.
  destruct v; simpl; try (split; [discriminate | intros [=]]).
  rewrite String.eqb_eq. split; [intros -> | intros [=]]; congruence.
Qed.

(** ** C1: the mapping of the ['create'] branch *)

Section create_mapping.
Context `{Env}.

Lemma classes_mapping draw args :
  documented_mapping args "dbm" (Classes.derive draw args).
Proof.
  unfold documented_mapping, Classes.derive, supplied.
  destruct (truthy (dict_get args "sa360_url")).
  { repeat split; reflexivity. }
  destruct (truthy (dict_get args "adh_customer")).
  { repeat split; reflexivity. }
  unfold runner_rows, report_rows, supplied.
  destruct (truthy (dict_get args "runner")), (truthy (dict_get args "profile"));
    repeat split; reflexivity.
Qed.

Lemma appengine_documented draw args :
  supplied args "sa360_url" || negb (supplied args "sa360_id") = true →
  documented_mapping args "dv360" (Appengine.derive draw args).
Proof.
  unfold documented_mapping, Appengine.derive, supplied.
  destruct (truthy (dict_get args "sa360_url")).
  { repeat split; reflexivity. }
  destruct (truthy (dict_get args "sa360_id")); [discriminate |]; intros _.
  destruct (truthy (dict_get args "adh_customer")).
  { repeat split; reflexivity. }
  unfold runner_rows, report_rows, supplied.
  destruct (truthy (dict_get args "runner")), (truthy (dict_get args "profile"));
    repeat split; reflexivity.
Qed.

Lemma appengine_sa360_id draw args :
  supplied args "sa360_url" = false → supplied args "sa360_id" = true →
  sa360_id_row args (Appengine.derive draw args).
Proof.
  unfold Appengine.derive, supplied. intros -> ->.
  repeat split; reflexivity.
Qed.

Lemma appengine_rows draw args :
  appengine_mapping args (Appengine.derive draw args).
Proof.
  unfold appengine_mapping.
  destruct (supplied args "sa360_url") eqn:Hurl; simpl.
  - apply appengine_documented. by rewrite Hurl.
  - destruct (supplied args "sa360_id") eqn:Hid.
    + by apply appengine_sa360_id.
    + apply appengine_documented. by rewrite Hurl, Hid.
Qed.

End create_mapping.

(** C1, as written, fails on [src/appengine/classes/scheduler.py]: with
    a truthy ['sa360_id'] the chain takes the branch of that field, so
    the claimed rows (action ['fetch'], topic ['report2bq-trigger'],
    type ['cm'] or the dv360 type) are not produced.  The first input
    has exactly one of the four selectors the claim names (['profile']);
    the second has exactly one of the fields the chain tests
    (['sa360_id']). *)
Lemma C1_counterexample :
  ¬ (∃ E : Env,
       mapping_as_claimed named_selectors "dv360" Appengine.derive ∨
       mapping_as_claimed tested_selectors "dv360" Appengine.derive).
Proof.
  intros [E [Hc | Hc]].
  - specialize (Hc 0%N args_profile_sa360_id eq_refl eq_refl).
    vm_compute in Hc. destruct Hc as [[[=] _] _].
  - specialize (Hc 0%N args_sa360_id eq_refl eq_refl).
    vm_compute in Hc. destruct Hc as [[[=] _] _].
Qed.

(** C1, amended.  A field is present when it is supplied with a truthy
    value, and the selectors are taken in the order of the chain.
    [src/classes/scheduler.py] produces the documented mapping with the
    dv360 type ['dbm']; [src/appengine/classes/scheduler.py] produces it
    with the dv360 type ['dv360'], except that a truthy ['sa360_id']
    without ['sa360_url'] selects a branch of its own: topic
    ['report-runner'], action ['run'], hour the ['hour'] entry or ['*']
    when there is none, attributes ['report_id'] and the type
    [Type.SA360_RPT.value]. *)
Theorem C1_create_mapping `{Env} (draw : N) (args : gmap string pyval) :
  documented_mapping args "dbm" (Classes.derive draw args) ∧
  appengine_mapping args (Appengine.derive draw args).
Proof.
  split; [apply classes_mapping | apply appengine_rows].
Qed.


(** ** C8: the two modules side by side *)





(** ** C9: precedence among the selectors *)

Ltac not_in_list :=
  repeat (apply not_elem_of_cons; split; [discriminate |]); apply not_elem_of_nil.

(** Replace the entries of [args'] by those of [args] wherever the
    agreement [Hagree] covers the key. *)
Ltac same_entries Hagree args' :=
  unfold base_attrs, dict_get, dict_get_or;
  repeat match goal with
         | |- context [args' !! ?k] => rewrite <- (Hagree k) by not_in_list
         end.

Section precedence.
Context `{Env}.
Variables (draw draw' : N) (args args' : gmap string pyval).
Hypothesis Hagree : agree_off (later_selectors args) args args'.

Lemma classes_precedence :
  precedence args (Classes.derive draw args) (Classes.derive draw' args')
    (documented_mapping args "dbm").
Proof.
  split; [| split; [| apply classes_mapping]];
    revert Hagree; unfold later_selectors, later_keys, no_trace, supplied,
      observable, Classes.derive.
  - destruct (truthy (dict_get args "sa360_url")) eqn:Hurl;
      [| destruct (truthy (dict_get args "adh_customer")) eqn:Hadh];
      intros Hagree; same_entries Hagree args';
      unfold dict_get in *; rewrite ?Hurl, ?Hadh; try reflexivity.
    destruct (truthy (default PNone (args !! "runner"))),
      (truthy (default PNone (args !! "profile"))); reflexivity.
  - intros _.
    destruct (truthy (dict_get args "sa360_url")).
    { repeat constructor. }
    destruct (truthy (dict_get args "adh_customer")); repeat constructor.
Qed.

Lemma appengine_precedence :
  precedence args (Appengine.derive draw args) (Appengine.derive draw' args')
    (appengine_mapping args).
Proof.
  split; [| split; [| apply appengine_rows]];
    revert Hagree; unfold later_selectors, later_keys, no_trace, supplied,
      observable, Appengine.derive.
  - destruct (truthy (dict_get args "sa360_url")) eqn:Hurl;
      [| destruct (truthy (dict_get args "adh_customer")) eqn:Hadh];
      intros Hagree; same_entries Hagree args';
      unfold dict_get in *; rewrite ?Hurl, ?Hadh; try reflexivity.
    + destruct (truthy (default PNone (args !! "sa360_id"))); reflexivity.
    + destruct (truthy (default PNone (args !! "sa360_id"))),
        (truthy (default PNone (args !! "runner"))),
        (truthy (default PNone (args !! "profile"))); reflexivity.
  - intros _.
    destruct (truthy (dict_get args "sa360_url")).
    { repeat constructor. }
    destruct (truthy (dict_get args "sa360_id")),
      (truthy (dict_get args "adh_customer")); repeat constructor.
Qed.

End precedence.



(** ** C10: the minute of the schedule *)

Lemma randrange_0_59 (draw : N) : (0 ≤ randrange draw 0 59 ≤ 58)%Z.
Proof.
  unfold randrange.
  pose proof (Z.mod_pos_bound (Z.of_N draw) (59 - 0)) as Hb. lia.
Qed.

(** Every minute from 0 to 58 is drawn by some draw. *)
Lemma randrange_0_59_onto (m : Z) :
  (0 ≤ m ≤ 58)%Z → randrange (Z.to_N m) 0 59 = m.
Proof.
  intros Hm. unfold randrange. rewrite Z2N.id by lia.
  rewrite Z.mod_small; lia.
Qed.

Section minute.
Context `{Env}.

Lemma classes_minute draw args :
  minute (Classes.derive draw args) = pick_minute draw args.
Proof.
  unfold Classes.derive.
  destruct (truthy (dict_get args "sa360_url")); [reflexivity |].
  destruct (truthy (dict_get args "adh_customer")); [reflexivity |].
  destruct (truthy (dict_get args "runner")), (truthy (dict_get args "profile"));
    reflexivity.
Qed.

Lemma appengine_minute draw args :
  minute (Appengine.derive draw args) = pick_minute draw args.
Proof.
  unfold Appengine.derive.
  destruct (truthy (dict_get args "sa360_url")); [reflexivity |].
  destruct (truthy (dict_get args "sa360_id")); [reflexivity |].
  destruct (truthy (dict_get args "adh_customer")); [reflexivity |].
  destruct (truthy (dict_get args "runner")), (truthy (dict_get args "profile"));
    reflexivity.
Qed.

Lemma pick_minute_rule draw args l :
  minute l = pick_minute draw args → minute_rule args l.
Proof.
  intros Hl. split; [reflexivity |].
  rewrite Hl. unfold pick_minute, supplied.
  destruct (truthy (dict_get args "minute")); [reflexivity |].
  exists (randrange draw 0 59). split; [reflexivity | apply randrange_0_59].
Qed.

End minute.

(** An absent entry is not a supplied one. *)
Lemma absent_not_supplied (args : gmap string pyval) (k : string) :
  args !! k = None → supplied args k = false.
Proof. unfold supplied, dict_get. by intros ->. Qed.

(** C10, as written, fails in both modules: a ['minute'] entry of [0] is
    supplied, and the schedule gets the random minute (here 7) instead. *)
Lemma C10_counterexample :
  ¬ (∃ E : Env,
       minute_as_claimed Appengine.derive ∨ minute_as_claimed Classes.derive).
Proof.
  intros [E [Hc | Hc]];
    destruct (Hc 7%N args_minute_0 eq_refl) as [_ Hv];
    specialize (Hv (PInt 0) eq_refl); vm_compute in Hv; discriminate Hv.
Qed.

(** C10, amended.  In both modules the schedule is
    ['{minute} {hour} * * *']; a ['minute'] entry with a truthy value is
    used verbatim, and when the entry is absent or falsy ([None], [''],
    [0], [False]) the minute is a random integer from 0 to 58, never
    59. *)
Theorem C10_minute `{Env} (draw : N) (args : gmap string pyval) :
  minute_rule args (Appengine.derive draw args) ∧
  minute_rule args (Classes.derive draw args).
Proof.
  split; apply (pick_minute_rule draw).
  - apply appengine_minute.
  - apply classes_minute.
Qed.

(** ** C3: the pages of [list_jobs] *)

Lemma fetch_pages_all (fuel : nat) (parent : string)
    (pages : list (option (list pyval) * pyval)) :
  ∀ (token : pyval) (jobs : list pyval) (last_jobs : option (list pyval))
    (rest : list reply) (log : list request),
    length pages < fuel →
    fetch_pages fuel parent token jobs
      (World (map page_reply pages ++ Jobs last_jobs None :: rest) log) =
    (Ret (jobs ++ jobs_of_pages (map fst pages ++ [last_jobs])),
     World rest (log ++ map (jobs_list parent) (token :: map snd pages))).
Proof.
  revert fuel.
  induction pages as [| [js next] pages IH]; intros fuel token jobs last_jobs rest log Hfuel;
    (destruct fuel as [| fuel]; [simpl in Hfuel; lia |]).
  - unfold jobs_of_pages. simpl. by rewrite app_nil_r.
  - simpl in Hfuel.
    change (fetch_pages (S fuel) parent token jobs
              (World (map page_reply ((js, next) :: pages) ++
                      Jobs last_jobs None :: rest) log))
      with (fetch_pages fuel parent next (jobs ++ default [] js)
              (World (map page_reply pages ++ Jobs last_jobs None :: rest)
                 (log ++ [jobs_list parent token]))).
    rewrite IH by lia. unfold jobs_of_pages. simpl.
    by rewrite <- !(assoc_L (++)).
Qed.

Lemma while_True_all (parent : string)
    (pages : list (option (list pyval) * pyval))
    (last_jobs : option (list pyval)) (rest : list reply) (log : list request) :
  while_True parent
    (World (map page_reply pages ++ Jobs last_jobs None :: rest) log) =
  (Ret (jobs_of_pages (map fst pages ++ [last_jobs])),
   World rest (log ++ map (jobs_list parent) (PNone :: map snd pages))).
Proof.
  unfold while_True. rewrite fetch_pages_all; [done |].
  cbn [replies]. rewrite length_app, length_map. simpl. lia.
Qed.

(** C3.  Let the service answer the list requests with the [pages], each
    with a ['nextPageToken'], then with a page without one, and have
    [rest] ready after that.  The loop of [list_jobs] asks for the first
    page with the token [None] and for each following page with the
    token of the page before; it stops at the page without a token,
    leaving [rest] unread; and what it has gathered, which [list_jobs]
    returns when no email is given, is the ['jobs'] arrays of the pages
    in order, a page without the key adding nothing. *)
Theorem C3_pagination `{Env} (project location : pyval)
    (pages : list (option (list pyval) * pyval))
    (last_jobs : option (list pyval)) (rest : list reply) (log : list request) :
  let parent := CloudSchedulerClient.location_path project location in
  let w := World (map page_reply pages ++ Jobs last_jobs None :: rest) log in
  let jobs := jobs_of_pages (map fst pages ++ [last_jobs]) in
  let w' := World rest (log ++ map (jobs_list parent) (PNone :: map snd pages)) in
  while_True parent w = (Ret jobs, w') ∧
  Classes.list_jobs project location PNone w = (Ret (Classes.a_list jobs), w') ∧
  (truthy location = true →
   Appengine.list_jobs project location PNone w = (Ret jobs, w')).
Proof.
  intros parent w jobs w'.
  pose proof (while_True_all parent pages last_jobs rest log) as Hloop.
  fold w jobs w' in Hloop.
  split; [exact Hloop | split].
  - unfold Classes.list_jobs, mbind, M_bind. fold parent. by rewrite Hloop.
  - intros Hl. unfold Appengine.list_jobs, Appengine.location_or_last, mbind, M_bind.
    rewrite Hl. simpl. fold parent. by rewrite Hloop.
Qed.

Lemma C3_pagination_witness :
  truthy (PStr "europe-west1") = true ∧
  Appengine.list_jobs (H:=sample_env) (PStr "my-project") (PStr "europe-west1")
    PNone sample_listing =
  (Ret [job_for "fetch-dv360-1" "me@example.com"; job_http;
        job_for "run-cm-2" "you@example.com";
        job_for "fetch-cm-3" "me@example.com"],
   World []
     (map (jobs_list "projects/my-project/locations/europe-west1")
          [PNone; PStr "page-2"; PStr "page-3"])).
Proof.
  split; [reflexivity |].
  apply (C3_pagination (H:=sample_env) (PStr "my-project") (PStr "europe-west1")
           sample_pages sample_last_page [] []).
  reflexivity.
Defined.

(** ** C2: the email filter of [list_jobs] *)

Lemma email_filter_resource (e : string) (j : pyval) (w : world) :
  job_resource j = true →
  email_filter (PStr e) j w = (Ret (eq_str (email_field j) e), w).
Proof.
  destruct j as [| | | | |d]; try discriminate.
  unfold job_resource, email_field, email_filter, mbind, M_bind, get_or,
    dict_get_or, ret, mret, M_ret.
  destruct (d !! "pubsubTarget") as [[| | | | |t]|]; try discriminate; simpl.
  - destruct (t !! "attributes") as [[| | | | |a]|]; try discriminate;
      intros _; simpl; rewrite ?lookup_empty;
      first [reflexivity | by rewrite py_eq_str].
  - intros _. rewrite !lookup_empty. reflexivity.
Qed.

Lemma filterM_matching (e : string) (jobs : list pyval) (w : world) :
  Forall (λ j, job_resource j = true) jobs →
  filterM (email_filter (PStr e)) jobs w = (Ret (matching e jobs), w).
Proof.
  induction 1 as [| j jobs Hj _ IH]; [reflexivity |].
  unfold matching in *. simpl. unfold mbind, M_bind in *.
  rewrite email_filter_resource by done. rewrite IH.
  by destruct (eq_str (email_field j) e).
Qed.

Lemma elem_of_matching (e : string) (jobs : list pyval) (j : pyval) :
  j ∈ matching e jobs ↔ j ∈ jobs ∧ email_field j = PStr e.
Proof.
  unfold matching. rewrite !list_elem_of_In, filter_In, eq_str_true. done.
Qed.

Lemma appengine_list_jobs_run `{Env} (project location email : pyval) (w : world) :
  truthy location = true →
  Appengine.list_jobs project location email w =
  match while_True (CloudSchedulerClient.location_path project location) w with
  | (Ret jobs, w') =>
      (if truthy email && truthy (PList jobs)
       then filterM (email_filter email) jobs else ret jobs) w'
  | (Raise e, w') => (Raise e, w')
  | (NoReply, w') => (NoReply, w')
  end.
Proof.
  intros Hl. unfold Appengine.list_jobs, Appengine.location_or_last.
  rewrite Hl. reflexivity.
Qed.

(** C2.  Let [jobs] be what the pages of the service add up to.  When
    the email argument is empty (or [None]) or [jobs] is empty,
    [list_jobs] returns [jobs] unchanged.  For a non-empty email string
    and a non-empty list of job resources it returns, in their order,
    exactly the jobs whose [pubsubTarget.attributes.email] is that
    email, a job without the field counting as having the email ['']
    ([src/classes/scheduler.py] returns them as a [filter] object, which
    yields these jobs). *)
Theorem C2_email_filter `{Env} (project location email : pyval)
    (jobs : list pyval) (w w' : world) :
  truthy location = true →
  while_True (CloudSchedulerClient.location_path project location) w = (Ret jobs, w') →
  (truthy email = false ∨ jobs = [] →
   Appengine.list_jobs project location email w = (Ret jobs, w') ∧
   Classes.list_jobs project location email w = (Ret (Classes.a_list jobs), w')) ∧
  (∀ e : string,
     email = PStr e → e ≠ "" → jobs ≠ [] →
     Forall (λ j, job_resource j = true) jobs →
     Appengine.list_jobs project location email w = (Ret (matching e jobs), w') ∧
     Classes.list_jobs project location email w =
       (Ret (Classes.a_filter email jobs), w') ∧
     (∀ w'', Classes.elements (Classes.a_filter email jobs) w'' =
             (Ret (matching e jobs), w'')) ∧
     ∀ j, j ∈ matching e jobs ↔ j ∈ jobs ∧ email_field j = PStr e).
Proof.
  intros Hl Hloop.
  assert (Ha : ∀ b : bool, truthy email && truthy (PList jobs) = b →
            Appengine.list_jobs project location email w =
            (if b then filterM (email_filter email) jobs else ret jobs) w').
  { intros b <-. rewrite appengine_list_jobs_run by done. by rewrite Hloop. }
  assert (Hc : ∀ b : bool, truthy email && truthy (PList jobs) = b →
            Classes.list_jobs project location email w =
            (Ret (if b then Classes.a_filter email jobs else Classes.a_list jobs), w')).
  { intros b <-. unfold Classes.list_jobs, mbind, M_bind. rewrite Hloop.
    by destruct (truthy email && truthy (PList jobs)). }
  split.
  - intros Hoff.
    assert (Hb : truthy email && truthy (PList jobs) = false).
    { destruct Hoff as [-> | ->]; [done | apply andb_false_r]. }
    by rewrite (Ha _ Hb), (Hc _ Hb).
  - intros e -> He Hjobs Hres.
    assert (Hb : truthy (PStr e) && truthy (PList jobs) = true).
    { apply andb_true_iff. split.
      - simpl. apply negb_true_iff, String.eqb_neq, He.
      - by destruct jobs. }
    rewrite (Ha _ Hb), (Hc _ Hb).
    split; [| split; [| split]].
    + by apply filterM_matching.
    + reflexivity.
    + intros w''. by apply filterM_matching.
    + apply elem_of_matching.
Qed.

Lemma C2_email_filter_witness :
  Appengine.list_jobs (H:=sample_env) (PStr "my-project") (PStr "europe-west1")
    (PStr "me@example.com") sample_listing =
  (Ret [job_for "fetch-dv360-1" "me@example.com";
        job_for "fetch-cm-3" "me@example.com"],
   World []
     (map (jobs_list "projects/my-project/locations/europe-west1")
          [PNone; PStr "page-2"; PStr "page-3"])).
Proof.
  refine (proj1 (proj2 (C2_email_filter (H:=sample_env)
            (PStr "my-project") (PStr "europe-west1") (PStr "me@example.com")
            [job_for "fetch-dv360-1" "me@example.com"; job_http;
             job_for "run-cm-2" "you@example.com";
             job_for "fetch-cm-3" "me@example.com"]
            sample_listing _ eq_refl eq_refl)
          "me@example.com" eq_refl _ _ _)).
  - discriminate.
  - discriminate.
  - repeat constructor.
Defined.

(** ** C4: failures of the remote call *)

Lemma truthy_str (s : string) : s ≠ "" → truthy (PStr s) = true.
Proof. intros Hs. simpl. by apply negb_true_iff, String.eqb_neq. Qed.




(** ** Running [process] and [create_job] *)

Lemma run_bind {A B} (m : M A) (f : A → M B) (w : world) :
  (m ≫= f) w =
  match m w with
  | (Ret a, w') => f a w'
  | (Raise e, w') => (Raise e, w')
  | (NoReply, w') => (NoReply, w')
  end.
Proof. reflexivity. Qed.

Lemma sent_new {A} (m : M A) (w : world) (new : list request) :
  issued (m w).2 = issued w ++ new → sent m w = new.
Proof. unfold sent. intros ->. apply drop_app_length. Qed.

Lemma last_item_run (l : list pyval) (x : pyval) (w : world) :
  last l = Some x → last_item l w = (Ret x, w).
Proof. unfold last_item. by intros ->. Qed.

Section create.
Context `{Env}.

Lemma appengine_list_locations_run project locations rest log :
  Appengine.list_locations project
    (World (Locations (Some locations) :: rest) log) =
  (Ret locations,
   World rest (log ++ [locations_list (Appengine.project_path project)])).
Proof. reflexivity. Qed.

Lemma classes_list_locations_run project locations rest log :
  Classes.list_locations project
    (World (Locations (Some locations) :: rest) log) =
  (Ret locations,
   World rest (log ++ [locations_list (CloudSchedulerClient.project_path project)])).
Proof. reflexivity. Qed.

Lemma appengine_create_job_run project location job r rest log :
  truthy location = true →
  Appengine.create_job project location job (World (r :: rest) log) =
  (match r with Failed content => Raise (HttpError content) | _ => Ret () end,
   World rest (log ++ [jobs_create
                         (CloudSchedulerClient.location_path project location)
                         (Appengine.create_body project location job)])).
Proof.
  intros Hl. unfold Appengine.create_job, Appengine.location_or_last.
  rewrite Hl. by destruct r.
Qed.

Lemma appengine_create_job_sent project location job w :
  truthy location = true →
  sent (Appengine.create_job project location job) w =
  [jobs_create (CloudSchedulerClient.location_path project location)
     (Appengine.create_body project location job)].
Proof.
  intros Hl. apply sent_new.
  unfold Appengine.create_job, Appengine.location_or_last. rewrite Hl.
  by destruct w as [[| [] ?] ?].
Qed.

Lemma classes_create_job_run project location job r rest log :
  Classes.create_job project location job (World (r :: rest) log) =
  (match r with Failed content => Raise (HttpError content) | _ => Ret () end,
   World rest (log ++ [jobs_create
                         (CloudSchedulerClient.location_path project location)
                         (Classes.create_body project location job)])).
Proof. by destruct r. Qed.

Ltac only_create Hact :=
  rewrite Hact;
  change (py_eq (PStr "create") (PStr "list")) with false;
  change (py_eq (PStr "create") (PStr "get")) with false;
  change (py_eq (PStr "create") (PStr "delete")) with false;
  change (py_eq (PStr "create") (PStr "enable")) with false;
  change (py_eq (PStr "create") (PStr "disable")) with false;
  change (py_eq (PStr "create") (PStr "create")) with true;
  cbv iota.

(** With the action ['create'], [process] lists the locations and sends
    one create request, for the job specification that the selector
    chain derives, to the last location. *)
Lemma appengine_process_create draw args locations location r rest log :
  py_eq (dict_get args "action") (PStr "create") = true →
  last locations = Some location → truthy location = true →
  sent (Appengine.process draw args)
    (World (Locations (Some locations) :: r :: rest) log) =
  [locations_list (Appengine.project_path (dict_get args "project"));
   jobs_create
     (CloudSchedulerClient.location_path (dict_get args "project") location)
     (Appengine.create_body (dict_get args "project") location
        (job_of (Appengine.derive draw args)))].
Proof.
  rewrite py_eq_str, eq_str_true. intros Hact Hlast Hl. apply sent_new.
  unfold Appengine.process. only_create Hact.
  rewrite run_bind, appengine_list_locations_run.
  rewrite run_bind, (last_item_run _ _ _ Hlast).
  rewrite run_bind, appengine_create_job_run by done.
  destruct r; simpl; by rewrite <- (assoc_L (++)).
Qed.

Lemma classes_process_create draw args locations location r rest log :
  py_eq (dict_get args "action") (PStr "create") = true →
  last locations = Some location →
  sent (Classes.process draw args)
    (World (Locations (Some locations) :: r :: rest) log) =
  [locations_list (CloudSchedulerClient.project_path (dict_get args "project"));
   jobs_create
     (CloudSchedulerClient.location_path (dict_get args "project") location)
     (Classes.create_body (dict_get args "project") location
        (job_of (Classes.derive draw args)))].
Proof.
  rewrite py_eq_str, eq_str_true. intros Hact Hlast. apply sent_new.
  unfold Classes.process. only_create Hact.
  rewrite run_bind, classes_list_locations_run.
  rewrite run_bind, (last_item_run _ _ _ Hlast).
  rewrite run_bind, classes_create_job_run.
  destruct r; simpl; by rewrite <- (assoc_L (++)).
Qed.

(** No branch of the chain touches the ['timezone'] entry of [args]. *)
Lemma appengine_timezone_kept draw args :
  dict_get (args_after (Appengine.derive draw args)) "timezone" =
  dict_get args "timezone".
Proof.
  unfold Appengine.derive.
  destruct (truthy (dict_get args "sa360_url")); [reflexivity |].
  destruct (truthy (dict_get args "sa360_id")).
  { cbn [args_after]. unfold dict_get. by rewrite lookup_insert_ne. }
  destruct (truthy (dict_get args "adh_customer")); [reflexivity |].
  destruct (truthy (dict_get args "runner")), (truthy (dict_get args "profile"));
    reflexivity.
Qed.

Lemma classes_timezone_kept draw args :
  dict_get (args_after (Classes.derive draw args)) "timezone" =
  dict_get args "timezone".
Proof.
  unfold Classes.derive.
  destruct (truthy (dict_get args "sa360_url")); [reflexivity |].
  destruct (truthy (dict_get args "adh_customer")); [reflexivity |].
  destruct (truthy (dict_get args "runner")), (truthy (dict_get args "profile"));
    reflexivity.
Qed.

Lemma job_of_timeZone (l : locals) :
  job_of l !! "timeZone" =
  Some (py_or (dict_get (args_after l) "timezone") (PStr "UTC")).
Proof. reflexivity. Qed.

End create.

(** ** C5: the time zone of the job *)

(** C5 does not hold of the code, in either module.  The job
    specification that [process] assembles carries the time zone under
    the key ['timeZone'] (the user's, or ['UTC']), but [create_job]
    reads the key ['timezone'], which the specification does not have:
    the create request that is sent has the [timeZone] [''], whatever
    the user supplied. *)
Theorem C5_timezone_not_sent `{Env} (draw : N) (args : gmap string pyval)
    (locations : list pyval) (location : pyval) (r : reply)
    (rest : list reply) (log : list request) :
  py_eq (dict_get args "action") (PStr "create") = true →
  last locations = Some location → truthy location = true →
  let w := World (Locations (Some locations) :: r :: rest) log in
  let tz := py_or (dict_get args "timezone") (PStr "UTC") in
  (job_of (Appengine.derive draw args) !! "timeZone" = Some tz ∧
   map timeZone (sent (Appengine.process draw args) w) = [None; Some (PStr "")]) ∧
  (job_of (Classes.derive draw args) !! "timeZone" = Some tz ∧
   map timeZone (sent (Classes.process draw args) w) = [None; Some (PStr "")]).
Proof.
  intros Hact Hlast Hl w tz. subst w tz. repeat split.
  - by rewrite job_of_timeZone, appengine_timezone_kept.
  - by rewrite (appengine_process_create _ _ _ _ _ _ _ Hact Hlast Hl).
  - by rewrite job_of_timeZone, classes_timezone_kept.
  - by rewrite (classes_process_create _ _ _ _ _ _ _ Hact Hlast).
Qed.

Lemma C5_timezone_not_sent_witness :
  job_of (H:=sample_env) (Appengine.derive (H:=sample_env) 7 args_timezone)
    !! "timeZone" = Some (PStr "Europe/London") ∧
  map timeZone (sent (Appengine.process (H:=sample_env) 7 args_timezone)
                  (World one_location [])) = [None; Some (PStr "")].
Proof.
  exact (proj1 (C5_timezone_not_sent (H:=sample_env) 7 args_timezone
                  [PStr "us-central1"; PStr "europe-west1"] (PStr "europe-west1")
                  (Resource (PDict ∅)) [] [] eq_refl eq_refl eq_refl)).
Defined.

(** ** C6: the topic of the pub/sub target *)

(** C6.  For a project string and any job dict, the create request that
    [create_job] sends has the [topicName]
    ['projects/{project}/topics/{topic}'], the topic being the ['topic']
    entry of the job dict, or [''] when there is none.  In
    [src/appengine/classes/scheduler.py] the request is the only one
    sent when a location is given, and it follows the request for the
    locations otherwise. *)
Theorem C6_topic_name `{Env} (project : string) (location : pyval)
    (job : gmap string pyval) (w : world) :
  let name :=
    PStr ("projects/" +:+ project +:+ "/topics/" +:+
          str (dict_get_or job "topic" (PStr ""))) in
  map topicName (sent (Classes.create_job (PStr project) location job) w) =
    [Some name] ∧
  (truthy location = true →
   map topicName (sent (Appengine.create_job (PStr project) location job) w) =
     [Some name]) ∧
  Forall (λ req, match req with
                 | jobs_create _ _ => topicName req = Some name
                 | _ => True
                 end)
    (sent (Appengine.create_job (PStr project) location job) w).
Proof.
  intros name. destruct w as [script log].
  split; [| split].
  - rewrite (sent_new _ _ [jobs_create
               (CloudSchedulerClient.location_path (PStr project) location)
               (Classes.create_body (PStr project) location job)]); [done |].
    by destruct script as [| [] ?].
  - intros Hl. by rewrite appengine_create_job_sent.
  - destruct (truthy location) eqn:Hl.
    { rewrite appengine_create_job_sent by done. by repeat constructor. }
    destruct script as [| [[ls|] | | |] script];
      try (rewrite (sent_new _ _ [locations_list
                      (Appengine.project_path (PStr project))]);
           [by repeat constructor |];
           unfold Appengine.create_job, Appengine.location_or_last;
           by rewrite Hl).
    unfold Appengine.create_job, Appengine.location_or_last. rewrite Hl.
    simpl negb. cbv iota.
    destruct (last ls) as [location'|] eqn:Hlast.
    + rewrite (sent_new _ _ [locations_list
                 (Appengine.project_path (PStr project));
               jobs_create
                 (CloudSchedulerClient.location_path (PStr project) location')
                 (Appengine.create_body (PStr project) location' job)]);
        [by repeat constructor |].
      rewrite !run_bind, appengine_list_locations_run.
      rewrite (last_item_run _ _ _ Hlast).
      destruct script as [| [] ?]; simpl; by rewrite <- (assoc_L (++)).
    + rewrite (sent_new _ _ [locations_list
                 (Appengine.project_path (PStr project))]);
        [by repeat constructor |].
      rewrite !run_bind, appengine_list_locations_run.
      unfold last_item. by rewrite Hlast.
Qed.

Lemma C6_topic_name_witness :
  truthy (PStr "europe-west1") = true ∧
  map topicName
    (sent (Appengine.create_job (H:=sample_env) (PStr "my-project")
             (PStr "europe-west1")
             (job_of (H:=sample_env) (Appengine.derive (H:=sample_env) 7 args_report)))
       (World [Resource (PDict ∅)] [])) =
  [Some (PStr "projects/my-project/topics/report2bq-trigger")].
Proof.
  split; [reflexivity |].
  apply (C6_topic_name (H:=sample_env) "my-project" (PStr "europe-west1")
           (job_of (H:=sample_env) (Appengine.derive (H:=sample_env) 7 args_report))
           (World [Resource (PDict ∅)] [])).
  reflexivity.
Defined.

(** ** C7: the name of the job *)

(** C7.  For a project, a location and a job identifier, the name that
    the delete, get, resume, pause and create requests carry is
    ['projects/{project}/locations/{location}/jobs/{job}'], the string
    that [Scheduler.job_path] builds; for [create_job] the job
    identifier is the ['name'] entry of the job dict. *)
Theorem C7_job_name `{Env} (project location job : string)
    (spec : gmap string pyval) (w : world) :
  location ≠ "" → spec !! "name" = Some (PStr job) →
  let name :=
    "projects/" +:+ project +:+ "/locations/" +:+ location +:+ "/jobs/" +:+ job in
  Appengine.job_path (PStr project) (PStr location) (PStr job) = name ∧
  names_sent (PStr project) (PStr location) (PStr job) spec name w.
Proof.
  intros Hl%truthy_str Hspec name. split; [reflexivity |].
  unfold names_sent, Appengine.delete_job, Appengine.get_job,
    Appengine.enable_job, Appengine.location_or_last.
  rewrite Hl. simpl negb. cbv iota.
  rewrite (appengine_create_job_sent _ _ _ _ Hl).
  assert (Hname : ∀ body : pyval → pyval → gmap string pyval → gmap string pyval,
            (body = Appengine.create_body ∨ body = Classes.create_body) →
            body (PStr project) (PStr location) spec !! "name" = Some (PStr name)).
  { intros body [-> | ->];
      unfold Appengine.create_body, Classes.create_body, dict_get_or;
      rewrite Hspec; reflexivity. }
  repeat split.
  - apply sent_new. by destruct w as [[| [| | |[]] ?] ?].
  - apply sent_new. by destruct w as [[| [| | |[]] ?] ?].
  - apply sent_new. by destruct w as [[| [| | |[]] ?] ?].
  - apply sent_new. by destruct w as [[| [| | |[]] ?] ?].
  - simpl. f_equal. apply Hname. by left.
  - apply sent_new. by destruct w as [[| [| | |[]] ?] ?].
  - rewrite (sent_new _ _ [jobs_create
               (CloudSchedulerClient.location_path (PStr project) (PStr location))
               (Classes.create_body (PStr project) (PStr location) spec)]).
    + simpl. f_equal. apply Hname. by right.
    + by destruct w as [[| [] ?] ?].
Qed.

Lemma C7_job_name_witness :
  sent (Appengine.enable_job (H:=sample_env) (PStr "fetch-dv360-757975")
          (PStr "my-project") (PStr "europe-west1") false)
    (World [Resource (PDict ∅)] []) =
  [jobs_pause "projects/my-project/locations/europe-west1/jobs/fetch-dv360-757975"].
Proof.
  refine (proj1 (proj2 (proj2 (proj2 (proj2
            (C7_job_name (H:=sample_env) "my-project" "europe-west1"
               "fetch-dv360-757975"
               (job_of (H:=sample_env)
                  (Appengine.derive (H:=sample_env) 7 args_report))
               (World [Resource (PDict ∅)] []) _ eq_refl)))))).
  discriminate.
Defined.

(** * Further properties of the code *)

(** ** The services *)

(** X1.  Every member of [Service] has a definition with exactly a
    service name and a version (the empty fallback of [definition] is
    never returned), and no two members share a value or a service
    name. *)
Theorem X1_service_definitions (s : Services.Service) :
  (∃ name version : string,
     Services.definition s =
       {[ "serviceName" := PStr name; "version" := PStr version ]}) ∧
  NoDup (Services.value <$> [Services.SCHEDULER; Services.DV360; Services.CM]) ∧
  NoDup ((λ s, Services.definition s !! "serviceName") <$>
           [Services.SCHEDULER; Services.DV360; Services.CM]).
Proof.
  split; [| split].
  - destruct s; eexists _, _; reflexivity.
  - repeat (apply NoDup_cons; split;
            [rewrite ?elem_of_cons, elem_of_nil; intros Hin;
             repeat destruct Hin as [Hin | Hin]; done |]).
    apply NoDup_nil_2.
  - vm_compute.
    repeat (apply NoDup_cons; split;
            [rewrite ?elem_of_cons, elem_of_nil; intros Hin;
             repeat destruct Hin as [Hin | Hin]; done |]).
    apply NoDup_nil_2.
Qed.

(** ** The job specification *)

(** X2.  Whatever branch the selector chain takes, in both modules the
    attribute mapping keeps the attributes set before the chain
    (['email'] and ['project'] as given, the flags ['force'],
    ['infer_schema'] and ['append'] as strings) and its ['type'] is the
    type of the branch. *)
Theorem X2_base_attributes `{Env} (draw : N) (args : gmap string pyval) :
  keeps_base_attrs args (Appengine.derive draw args) ∧
  keeps_base_attrs args (Classes.derive draw args).
Proof.
  unfold keeps_base_attrs, Appengine.derive, Classes.derive.
  destruct (truthy (dict_get args "sa360_url"));
    [repeat split; vm_compute; reflexivity |].
  destruct (truthy (dict_get args "adh_customer")),
    (truthy (dict_get args "sa360_id")),
    (truthy (dict_get args "runner")),
    (truthy (dict_get args "profile")); repeat split; vm_compute; reflexivity.
Qed.

Lemma job_of_entries `{Env} (l l' : locals) :
  action l = action l' → product l = product l' → minute l = minute l' →
  hour l = hour l' → args_after l = args_after l' →
  Forall (λ k, job_of l !! k = job_of l' !! k) common_entries.
Proof.
  unfold job_of. intros -> -> -> -> ->. by repeat constructor.
Qed.

Lemma job_of_name `{Env} (l : locals) :
  job_of l !! "name" =
  Some (PStr (action l +:+ "-" +:+ product l +:+ "-" +:+
              str (dict_get (args_after l) "report_id"))).
Proof. reflexivity. Qed.

Lemma job_of_schedule `{Env} (l : locals) :
  job_of l !! "schedule" =
  Some (PStr (str (minute l) +:+ " " +:+ str (hour l) +:+ " * * *")).
Proof. reflexivity. Qed.

Lemma dict_get_insert (m : gmap string pyval) (k : string) (v : pyval) :
  dict_get (<[k := v]> m) k = v.
Proof. unfold dict_get. by rewrite lookup_insert_eq. Qed.



(** X4.  In the ['sa360_id'] branch of
    [src/appengine/classes/scheduler.py] the report id of [args] is
    overwritten with the SA360 id, so the job is named after the SA360
    id whatever ['report_id'] was supplied; and its schedule takes the
    ['hour'] entry as it is, also when it is empty or [None], ['*']
    standing in only when there is no entry. *)
Theorem X4_sa360_id_job `{Env} (draw : N) (args : gmap string pyval) :
  supplied args "sa360_url" = false → supplied args "sa360_id" = true →
  let l := Appengine.derive draw args in
  args_after l !! "report_id" = Some (dict_get args "sa360_id") ∧
  job_of l !! "name" =
    Some (PStr ("run-" +:+ SA360_RPT_value +:+ "-" +:+
                str (dict_get args "sa360_id"))) ∧
  job_of l !! "schedule" =
    Some (PStr (str (pick_minute draw args) +:+ " " +:+
                str (default (PStr "*") (args !! "hour")) +:+ " * * *")).
Proof.
  unfold supplied, Appengine.derive. intros -> ->. cbn zeta.
  rewrite job_of_name, job_of_schedule.
  cbn [args_after action product minute hour].
  rewrite dict_get_insert, lookup_insert_eq.
  split; [reflexivity | split; [reflexivity | reflexivity]].
Qed.

Lemma X4_sa360_id_job_witness :
  job_of (H:=sample_env) (Appengine.derive (H:=sample_env) 7 args_sa360_report)
    !! "name" = Some (PStr "run-sa360_report-21700000001406786") ∧
  job_of (H:=sample_env) (Appengine.derive (H:=sample_env) 7 args_sa360_report)
    !! "schedule" = Some (PStr "7  * * *").
Proof.
  pose proof (proj2 (X4_sa360_id_job (H:=sample_env) 7 args_sa360_report
                  eq_refl eq_refl)) as Hw.
  vm_compute in Hw |- *. exact Hw.
Defined.

(** ** [process], action by action *)

Ltac pick_action :=
  repeat match goal with
         | |- context [py_eq (PStr ?a) (PStr ?b)] =>
             let v := eval vm_compute in (py_eq (PStr a) (PStr b)) in
             change (py_eq (PStr a) (PStr b)) with v
         end;
  cbv iota.

Lemma error_text_run `{Env} (e : pyval) (w : world) :
  error_text e w =
  (match e with
   | PDict d =>
       match d !! "error" with
       | Some (PDict inner) =>
           match inner !! "message" with
           | Some message => Ret (ReturnStr ("ERROR!" +:+ newline +:+ str message))
           | None => Raise KeyError
           end
       | Some _ => Raise TypeError
       | None => Raise KeyError
       end
   | _ => Raise TypeError
   end, w).
Proof.
  destruct e as [| | | | |d]; try reflexivity.
  unfold error_text, subscript. rewrite run_bind.
  destruct (d !! "error") as [[| | | | |inner]|]; try reflexivity.
  unfold ret at 1, mret, M_ret. rewrite run_bind.
  by destruct (inner !! "message").
Qed.

Section process.
Context `{Env}.
Variables (draw : N) (args : gmap string pyval).
Variables (locations : list pyval) (location : pyval).
Variables (r : reply) (rest : list reply) (log : list request).
Hypothesis Hlast : last locations = Some location.

Local Abbreviation project := (dict_get args "project").
Local Abbreviation job_id := (dict_get args "job_id").
Local Abbreviation name := (CloudSchedulerClient.job_path project location job_id).
Local Abbreviation w := (World (Locations (Some locations) :: r :: rest) log).
Local Abbreviation listed :=
  (log ++ [locations_list (Appengine.project_path project)]).
Local Abbreviation answer := (text_answer r).

Lemma appengine_process_delete :
  truthy location = true →
  py_eq (dict_get args "action") (PStr "delete") = true →
  Appengine.process draw args w =
  answer (World rest (listed ++ [jobs_delete name])).
Proof.
  intros Hl. rewrite py_eq_str, eq_str_true. intros Hact.
  unfold Appengine.process. rewrite Hact. pick_action.
  rewrite run_bind, appengine_list_locations_run.
  rewrite run_bind, (last_item_run _ _ _ Hlast).
  rewrite run_bind.
  unfold Appengine.delete_job, Appengine.location_or_last. rewrite Hl.
  unfold text_answer. by destruct r as [| | |[]].
Qed.

Lemma appengine_process_enable (enable : bool) :
  truthy location = true →
  py_eq (dict_get args "action")
    (PStr (if enable then "enable" else "disable")) = true →
  Appengine.process draw args w =
  answer (World rest (listed ++
            [(if enable then jobs_resume else jobs_pause) name])).
Proof.
  intros Hl. rewrite py_eq_str, eq_str_true. intros Hact.
  unfold Appengine.process. rewrite Hact.
  destruct enable; pick_action;
    rewrite run_bind, appengine_list_locations_run;
    rewrite run_bind, (last_item_run _ _ _ Hlast);
    rewrite run_bind;
    unfold Appengine.enable_job, Appengine.location_or_last; rewrite Hl;
    unfold text_answer; by destruct r as [| | |[]].
Qed.

Lemma appengine_process_get :
  truthy location = true →
  py_eq (dict_get args "action") (PStr "get") = true →
  Appengine.process draw args w =
  (match r with
   | Resource job => Ret (ReturnPair true job)
   | Failed (Some e) => Ret (ReturnPair false e)
   | Failed None => Raise JSONDecodeError
   | _ => NoReply
   end, World rest (listed ++ [jobs_get name])).
Proof.
  intros Hl. rewrite py_eq_str, eq_str_true. intros Hact.
  unfold Appengine.process. rewrite Hact. pick_action.
  rewrite run_bind, appengine_list_locations_run.
  rewrite run_bind, (last_item_run _ _ _ Hlast).
  rewrite run_bind.
  unfold Appengine.get_job, Appengine.location_or_last. rewrite Hl.
  by destruct r as [| | |[]].
Qed.

Lemma classes_process_delete :
  py_eq (dict_get args "action") (PStr "delete") = true →
  Classes.process draw args w =
  answer (World rest (listed ++ [jobs_delete name])).
Proof.
  rewrite py_eq_str, eq_str_true. intros Hact.
  unfold Classes.process. rewrite Hact. pick_action.
  rewrite run_bind, classes_list_locations_run.
  rewrite run_bind, (last_item_run _ _ _ Hlast).
  rewrite run_bind.
  unfold text_answer. by destruct r as [| | |[]].
Qed.

Lemma appengine_process_other :
  Forall (λ a, py_eq (dict_get args "action") (PStr a) = false)
    appengine_actions →
  Appengine.process draw args w = (Ret ReturnNone, World (r :: rest) listed).
Proof.
  intros Hact. unfold appengine_actions in Hact.
  repeat match goal with
         | Hact : Forall _ (_ :: _) |- _ => apply Forall_cons in Hact as [? Hact]
         end.
  unfold Appengine.process.
  repeat match goal with Ha : py_eq _ _ = false |- _ => rewrite Ha; clear Ha end.
  rewrite run_bind, appengine_list_locations_run.
  by rewrite run_bind, (last_item_run _ _ _ Hlast).
Qed.

Lemma classes_process_other :
  Forall (λ a, py_eq (dict_get args "action") (PStr a) = false)
    classes_actions →
  Classes.process draw args w = (Ret ReturnNone, World (r :: rest) listed).
Proof.
  intros Hact. unfold classes_actions in Hact.
  repeat match goal with
         | Hact : Forall _ (_ :: _) |- _ => apply Forall_cons in Hact as [? Hact]
         end.
  unfold Classes.process.
  repeat match goal with Ha : py_eq _ _ = false |- _ => rewrite Ha; clear Ha end.
  rewrite run_bind, classes_list_locations_run.
  by rewrite run_bind, (last_item_run _ _ _ Hlast).
Qed.

End process.

(** X5.  With the action ['create'], [process] sends two requests: the
    one for the locations, then one create request to the last
    location.  The body of that request names the job
    ['{action}-{product}-{report_id}'] under the location, carries the
    schedule ['{minute} {hour} * * *'] and the description of [args]
    ([None] when there is none), and its pub/sub target carries the
    attribute mapping that the selector chain derived. *)
Theorem X5_create_request `{Env} (draw : N) (args : gmap string pyval)
    (locations : list pyval) (location : pyval) (r : reply)
    (rest : list reply) (log : list request) :
  py_eq (dict_get args "action") (PStr "create") = true →
  last locations = Some location → truthy location = true →
  let w := World (Locations (Some locations) :: r :: rest) log in
  sends_job (dict_get args "project") location args
    (Appengine.derive draw args) (sent (Appengine.process draw args) w) ∧
  sends_job (dict_get args "project") location args
    (Classes.derive draw args) (sent (Classes.process draw args) w).
Proof.
  intros Hact Hlast Hl w. subst w. unfold sends_job.
  rewrite (appengine_process_create _ _ _ _ _ _ _ Hact Hlast Hl).
  rewrite (classes_process_create _ _ _ _ _ _ _ Hact Hlast).
  assert (Ha : dict_get (args_after (Appengine.derive draw args)) "description" =
               dict_get args "description").
  { unfold Appengine.derive.
    destruct (truthy (dict_get args "sa360_url")); [reflexivity |].
    destruct (truthy (dict_get args "sa360_id")).
    { cbn [args_after]. unfold dict_get. by rewrite lookup_insert_ne. }
    destruct (truthy (dict_get args "adh_customer")); [reflexivity |].
    destruct (truthy (dict_get args "runner")), (truthy (dict_get args "profile"));
      reflexivity. }
  assert (Hc : dict_get (args_after (Classes.derive draw args)) "description" =
               dict_get args "description").
  { unfold Classes.derive.
    destruct (truthy (dict_get args "sa360_url")); [reflexivity |].
    destruct (truthy (dict_get args "adh_customer")); [reflexivity |].
    destruct (truthy (dict_get args "runner")), (truthy (dict_get args "profile"));
      reflexivity. }
  rewrite <- Ha at 1. rewrite <- Hc.
  generalize (Appengine.derive draw args) (Classes.derive draw args).
  intros a c. by repeat split.
Qed.

Lemma X5_create_request_witness :
  sends_job (H:=sample_env) (PStr "my-project") (PStr "europe-west1")
    args_timezone (Appengine.derive (H:=sample_env) 7 args_timezone)
    (sent (Appengine.process (H:=sample_env) 7 args_timezone)
       (World one_location [])).
Proof.
  exact (proj1 (X5_create_request (H:=sample_env) 7 args_timezone
                  [PStr "us-central1"; PStr "europe-west1"] (PStr "europe-west1")
                  (Resource (PDict ∅)) [] [] eq_refl eq_refl eq_refl)).
Defined.

(** X6.  Whatever the action, [process] first asks for the locations.
    When the service lists none, [process] raises [IndexError] (an empty
    list) or [KeyError] (no ['locations'] in the answer) and sends
    nothing else: no job is created, deleted or listed. *)
Theorem X6_no_locations `{Env} (draw : N) (args : gmap string pyval)
    (rest : list reply) (log : list request) :
  let asked := log ++ [locations_list
                         (Appengine.project_path (dict_get args "project"))] in
  Appengine.process draw args (World (Locations (Some []) :: rest) log) =
    (Raise IndexError, World rest asked) ∧
  Appengine.process draw args (World (Locations None :: rest) log) =
    (Raise KeyError, World rest asked) ∧
  Classes.process draw args (World (Locations (Some []) :: rest) log) =
    (Raise IndexError, World rest asked) ∧
  Classes.process draw args (World (Locations None :: rest) log) =
    (Raise KeyError, World rest asked).
Proof.
  intros asked. unfold Appengine.process, Classes.process.
  split; [| split; [| split]].
  - by rewrite run_bind, appengine_list_locations_run, run_bind.
  - by rewrite run_bind.
  - by rewrite run_bind, classes_list_locations_run, run_bind.
  - by rewrite run_bind.
Qed.

(** X7.  An action that a module does not know is ignored without an
    error: [process] asks for the locations, sends nothing else and
    returns [None].  [src/classes/scheduler.py] knows ['list'],
    ['delete'] and ['create'] only, so it ignores ['get'], ['enable']
    and ['disable'] in this way. *)
Theorem X7_unknown_action `{Env} (draw : N) (args : gmap string pyval)
    (locations : list pyval) (location : pyval)
    (rest : list reply) (log : list request) :
  last locations = Some location →
  let w := World (Locations (Some locations) :: rest) log in
  let w' := World rest
              (log ++ [locations_list
                         (Appengine.project_path (dict_get args "project"))]) in
  (Forall (λ a, py_eq (dict_get args "action") (PStr a) = false)
     appengine_actions →
   Appengine.process draw args w = (Ret ReturnNone, w')) ∧
  (Forall (λ a, py_eq (dict_get args "action") (PStr a) = false)
     classes_actions →
   Classes.process draw args w = (Ret ReturnNone, w')).
Proof.
  intros Hlast w w'. subst w w'. split; intros Hact.
  - destruct rest as [| r rest'].
    + unfold appengine_actions in Hact.
      repeat match goal with
             | Hact : Forall _ (_ :: _) |- _ =>
                 apply Forall_cons in Hact as [? Hact]
             end.
      unfold Appengine.process.
      repeat match goal with
             | Ha : py_eq _ _ = false |- _ => rewrite Ha; clear Ha
             end.
      rewrite run_bind, appengine_list_locations_run.
      by rewrite run_bind, (last_item_run _ _ _ Hlast).
    + by apply (appengine_process_other _ _ _ _ _ _ _ Hlast).
  - destruct rest as [| r rest'].
    + unfold classes_actions in Hact.
      repeat match goal with
             | Hact : Forall _ (_ :: _) |- _ =>
                 apply Forall_cons in Hact as [? Hact]
             end.
      unfold Classes.process.
      repeat match goal with
             | Ha : py_eq _ _ = false |- _ => rewrite Ha; clear Ha
             end.
      rewrite run_bind, classes_list_locations_run.
      by rewrite run_bind, (last_item_run _ _ _ Hlast).
    + by apply (classes_process_other _ _ _ _ _ _ _ Hlast).
Qed.

Lemma X7_unknown_action_witness :
  Classes.process (H:=sample_env) 0 args_enable (World [two_locations] []) =
  (Ret ReturnNone, World [] [locations_list "projects/my-project"]).
Proof.
  refine (proj2 (X7_unknown_action (H:=sample_env) 0 args_enable
                   [PStr "us-central1"; PStr "europe-west1"] (PStr "europe-west1")
                   [] [] eq_refl) _).
  repeat constructor.
Defined.

(** X8.  With the action ['delete'], [process] asks for the locations
    and sends one delete request for the job ['job_id'] at the last
    location.  It returns ['OK'] when the call succeeds, and
    ['ERROR!'], a newline and the message of the error when the call
    fails with a body of the form [{"error": {"message": ...}}].  Both
    modules. *)
Theorem X8_process_delete `{Env} (draw : N) (args : gmap string pyval)
    (locations : list pyval) (location : pyval) (r : reply)
    (rest : list reply) (log : list request) :
  py_eq (dict_get args "action") (PStr "delete") = true →
  last locations = Some location → truthy location = true →
  let project := dict_get args "project" in
  let name := CloudSchedulerClient.job_path project location
                (dict_get args "job_id") in
  let w := World (Locations (Some locations) :: r :: rest) log in
  let w' := World rest ((log ++ [locations_list (Appengine.project_path project)])
                        ++ [jobs_delete name]) in
  ((∀ content, r ≠ Failed content) →
   Appengine.process draw args w = (Ret (ReturnStr "OK"), w') ∧
   Classes.process draw args w = (Ret (ReturnStr "OK"), w')) ∧
  (∀ (d inner : gmap string pyval) (message : pyval),
     r = Failed (Some (PDict d)) → d !! "error" = Some (PDict inner) →
     inner !! "message" = Some message →
     let text := ReturnStr ("ERROR!" +:+ newline +:+ str message) in
     Appengine.process draw args w = (Ret text, w') ∧
     Classes.process draw args w = (Ret text, w')).
Proof.
  intros Hact Hlast Hl project name w w'. subst project name w w'.
  rewrite (appengine_process_delete _ _ _ _ _ _ _ Hlast Hl Hact).
  rewrite (classes_process_delete _ _ _ _ _ _ _ Hlast Hact).
  unfold text_answer.
  split.
  - intros Hok. destruct r as [| | |c]; [done | done | done |].
    by destruct (Hok c).
  - intros d inner message -> Hd Hinner. cbv zeta.
    rewrite error_text_run, Hd, Hinner. done.
Qed.

Lemma X8_process_delete_witness :
  Appengine.process (H:=sample_env) 0 args_delete
    (World [two_locations; Failed (Some not_found)] []) =
  (Ret (ReturnStr ("ERROR!" +:+ newline +:+ "Job not found.")),
   World []
     [locations_list "projects/my-project";
      jobs_delete
        "projects/my-project/locations/europe-west1/jobs/fetch-dv360-757975"]).
Proof.
  exact (proj1 (proj2 (X8_process_delete (H:=sample_env) 0 args_delete
                  [PStr "us-central1"; PStr "europe-west1"] (PStr "europe-west1")
                  (Failed (Some not_found)) [] [] eq_refl eq_refl eq_refl)
                _ _ (PStr "Job not found.") eq_refl eq_refl eq_refl)).
Defined.

(** X9.  When the delete call fails with a body that [process] cannot
    read, [process] does not return ['ERROR!...'] but raises:
    [JSONDecodeError] when the body is not JSON, [TypeError] when the
    decoded body or its ['error'] entry is not an object, [KeyError]
    when ['error'] or its ['message'] is missing.  The delete request
    has been sent all the same.  Both modules. *)
Theorem X9_unreadable_error `{Env} (draw : N) (args : gmap string pyval)
    (locations : list pyval) (location : pyval) (content : option pyval)
    (rest : list reply) (log : list request) :
  py_eq (dict_get args "action") (PStr "delete") = true →
  last locations = Some location → truthy location = true →
  let project := dict_get args "project" in
  let name := CloudSchedulerClient.job_path project location
                (dict_get args "job_id") in
  let w := World (Locations (Some locations) :: Failed content :: rest) log in
  let w' := World rest ((log ++ [locations_list (Appengine.project_path project)])
                        ++ [jobs_delete name]) in
  let raised :=
    match content with
    | None => Some JSONDecodeError
    | Some (PDict d) =>
        match d !! "error" with
        | None => Some KeyError
        | Some (PDict inner) =>
            match inner !! "message" with
            | None => Some KeyError
            | Some _ => None
            end
        | Some _ => Some TypeError
        end
    | Some _ => Some TypeError
    end in
  ∀ e, raised = Some e →
       Appengine.process draw args w = (Raise e, w') ∧
       Classes.process draw args w = (Raise e, w').
Proof.
  intros Hact Hlast Hl project name w w' raised e. subst project name w w' raised.
  rewrite (appengine_process_delete _ _ _ _ _ _ _ Hlast Hl Hact).
  rewrite (classes_process_delete _ _ _ _ _ _ _ Hlast Hact).
  unfold text_answer.
  destruct content as [body|]; [| by intros [= <-]].
  rewrite error_text_run.
  destruct body as [| | | | |d]; try by intros [= <-].
  destruct (d !! "error") as [[| | | | |inner]|]; try by intros [= <-].
  destruct (inner !! "message"); [discriminate | by intros [= <-]].
Qed.

Lemma X9_unreadable_error_witness :
  Classes.process (H:=sample_env) 0 args_delete
    (World [two_locations; Failed (Some (PStr "Service Unavailable"))] []) =
  (Raise TypeError,
   World []
     [locations_list "projects/my-project";
      jobs_delete
        "projects/my-project/locations/europe-west1/jobs/fetch-dv360-757975"]).
Proof.
  exact (proj2 (X9_unreadable_error (H:=sample_env) 0 args_delete
                  [PStr "us-central1"; PStr "europe-west1"] (PStr "europe-west1")
                  (Some (PStr "Service Unavailable")) [] []
                  eq_refl eq_refl eq_refl TypeError eq_refl)).
Defined.

(** X10.  In [src/appengine/classes/scheduler.py] the action ['enable']
    sends a resume request and the action ['disable'] a pause request
    for the job ['job_id'] at the last location, and [process] returns
    ['OK'] when the call succeeds. *)
Theorem X10_process_enable `{Env} (draw : N) (args : gmap string pyval)
    (enable : bool) (locations : list pyval) (location : pyval) (r : reply)
    (rest : list reply) (log : list request) :
  py_eq (dict_get args "action")
    (PStr (if enable then "enable" else "disable")) = true →
  last locations = Some location → truthy location = true →
  (∀ content, r ≠ Failed content) →
  let project := dict_get args "project" in
  let name := CloudSchedulerClient.job_path project location
                (dict_get args "job_id") in
  Appengine.process draw args
    (World (Locations (Some locations) :: r :: rest) log) =
  (Ret (ReturnStr "OK"),
   World rest ((log ++ [locations_list (Appengine.project_path project)]) ++
               [(if enable then jobs_resume else jobs_pause) name])).
Proof.
  intros Hact Hlast Hl Hok project name. subst project name.
  rewrite (appengine_process_enable _ _ _ _ _ _ _ Hlast enable Hl Hact).
  unfold text_answer.
  destruct r as [| | |c]; [done | done | done |].
  by destruct (Hok c).
Qed.

Lemma X10_process_enable_witness :
  Appengine.process (H:=sample_env) 0 args_enable
    (World [two_locations; Resource (PDict ∅)] []) =
  (Ret (ReturnStr "OK"),
   World []
     [locations_list "projects/my-project";
      jobs_resume
        "projects/my-project/locations/europe-west1/jobs/fetch-dv360-757975"]).
Proof.
  refine (X10_process_enable (H:=sample_env) 0 args_enable true
            [PStr "us-central1"; PStr "europe-west1"] (PStr "europe-west1")
            (Resource (PDict ∅)) [] [] eq_refl eq_refl eq_refl _).
  discriminate.
Defined.

(** X11.  In [src/appengine/classes/scheduler.py] the action ['get']
    sends one get request for the job ['job_id'] at the last location
    and returns the pair of [get_job] as it is: [(True, job)] with the
    job that the service answered, or [(False, error)] with the decoded
    body of a failure, whatever its form. *)
Theorem X11_process_get `{Env} (draw : N) (args : gmap string pyval)
    (locations : list pyval) (location : pyval) (r : reply)
    (rest : list reply) (log : list request) :
  py_eq (dict_get args "action") (PStr "get") = true →
  last locations = Some location → truthy location = true →
  let project := dict_get args "project" in
  let name := CloudSchedulerClient.job_path project location
                (dict_get args "job_id") in
  let w := World (Locations (Some locations) :: r :: rest) log in
  let w' := World rest ((log ++ [locations_list (Appengine.project_path project)])
                        ++ [jobs_get name]) in
  (∀ job, r = Resource job →
          Appengine.process draw args w = (Ret (ReturnPair true job), w')) ∧
  (∀ e, r = Failed (Some e) →
        Appengine.process draw args w = (Ret (ReturnPair false e), w')).
Proof.
  intros Hact Hlast Hl project name w w'. subst project name w w'.
  rewrite (appengine_process_get _ _ _ _ _ _ _ Hlast Hl Hact).
  split; by intros ? ->.
Qed.

Lemma X11_process_get_witness :
  Appengine.process (H:=sample_env) 0 args_get
    (World [two_locations; Resource (job_for "fetch-dv360-757975" "me@example.com")] []) =
  (Ret (ReturnPair true (job_for "fetch-dv360-757975" "me@example.com")),
   World []
     [locations_list "projects/my-project";
      jobs_get
        "projects/my-project/locations/europe-west1/jobs/fetch-dv360-757975"]).
Proof.
  exact (proj1 (X11_process_get (H:=sample_env) 0 args_get
                  [PStr "us-central1"; PStr "europe-west1"] (PStr "europe-west1")
                  (Resource (job_for "fetch-dv360-757975" "me@example.com")) [] []
                  eq_refl eq_refl eq_refl) _ eq_refl).
Defined.

(** ** Operations without a location *)

Section location.
Context `{Env}.

Lemma location_given (project location : pyval) (w : world) :
  truthy location = true →
  Appengine.location_or_last project location w = (Ret location, w).
Proof. unfold Appengine.location_or_last. by intros ->. Qed.

Lemma location_looked_up (project location : pyval) (locations : list pyval)
    (last_location : pyval) (script : list reply) (log : list request) :
  truthy location = false → last locations = Some last_location →
  Appengine.location_or_last project location
    (World (Locations (Some locations) :: script) log) =
  (Ret last_location,
   World script (log ++ [locations_list (Appengine.project_path project)])).
Proof.
  unfold Appengine.location_or_last. intros -> Hlast.
  change (negb false) with true. cbv iota.
  rewrite run_bind, appengine_list_locations_run.
  by apply last_item_run.
Qed.

End location.

(** X12.  An operation of [src/appengine/classes/scheduler.py] that is
    called without a location (with [None] or ['']) asks for the
    locations first and then behaves as the operation called with the
    last location of the answer. *)
Theorem X12_last_location `{Env} (job_id project location email : pyval)
    (job : gmap string pyval) (locations : list pyval) (last_location : pyval)
    (script : list reply) (log : list request) :
  truthy location = false →
  last locations = Some last_location → truthy last_location = true →
  let w := World (Locations (Some locations) :: script) log in
  let w1 := World script
              (log ++ [locations_list (Appengine.project_path project)]) in
  Appengine.delete_job job_id project location w =
    Appengine.delete_job job_id project last_location w1 ∧
  Appengine.get_job job_id project location w =
    Appengine.get_job job_id project last_location w1 ∧
  (∀ enable,
     Appengine.enable_job job_id project location enable w =
     Appengine.enable_job job_id project last_location enable w1) ∧
  Appengine.create_job project location job w =
    Appengine.create_job project last_location job w1 ∧
  Appengine.list_jobs project location email w =
    Appengine.list_jobs project last_location email w1.
Proof.
  intros Hl Hlast Hl' w w1. subst w w1.
  unfold Appengine.delete_job, Appengine.get_job, Appengine.enable_job,
    Appengine.create_job, Appengine.list_jobs.
  repeat match goal with
         | |- _ ∧ _ => split
         | |- ∀ _, _ => intros ?
         end;
    rewrite !(run_bind (Appengine.location_or_last _ _));
    rewrite (location_looked_up _ _ _ _ _ _ Hl Hlast);
    by rewrite (location_given _ _ _ Hl').
Qed.

Lemma X12_last_location_witness :
  Appengine.delete_job (H:=sample_env) (PStr "fetch-dv360-757975")
    (PStr "my-project") PNone
    (World [two_locations; Resource (PDict ∅)] []) =
  (Ret (true, PNone),
   World []
     [locations_list "projects/my-project";
      jobs_delete
        "projects/my-project/locations/europe-west1/jobs/fetch-dv360-757975"]).
Proof.
  exact (proj1 (X12_last_location (H:=sample_env) (PStr "fetch-dv360-757975")
                  (PStr "my-project") PNone PNone ∅
                  [PStr "us-central1"; PStr "europe-west1"] (PStr "europe-west1")
                  [Resource (PDict ∅)] [] eq_refl eq_refl eq_refl)).
Defined.

(** ** Listings *)

Lemma email_filter_run (email j : pyval) (w : world) :
  email_filter email j w =
  (if job_resource j then Ret (py_eq (email_field j) email)
   else Raise AttributeError, w).
Proof.
  destruct j as [| | | | |d]; try reflexivity.
  unfold job_resource, email_field, email_filter, mbind, M_bind, get_or,
    dict_get_or, ret, mret, M_ret.
  destruct (d !! "pubsubTarget") as [[| | | | |t]|]; try reflexivity; simpl.
  destruct (t !! "attributes") as [[| | | | |a]|]; reflexivity.
Qed.

Lemma filterM_with_email (email : pyval) (jobs : list pyval) (w : world) :
  Forall (λ j, job_resource j = true) jobs →
  filterM (email_filter email) jobs w = (Ret (with_email email jobs), w).
Proof.
  induction 1 as [| j jobs Hj _ IH]; [reflexivity |].
  unfold with_email in *. simpl. rewrite run_bind, email_filter_run, Hj.
  rewrite run_bind, IH.
  by destruct (py_eq (email_field j) email).
Qed.

Lemma filterM_raises (email : pyval) (jobs : list pyval) (w : world) :
  Exists (λ j, job_resource j = false) jobs →
  filterM (email_filter email) jobs w = (Raise AttributeError, w).
Proof.
  induction 1 as [j jobs Hj | j jobs _ IH]; simpl.
  - by rewrite run_bind, email_filter_run, Hj.
  - rewrite run_bind, email_filter_run.
    destruct (job_resource j); [| done].
    by rewrite run_bind, IH.
Qed.

Lemma filterM_world (email : pyval) (jobs : list pyval) (w : world) :
  (filterM (email_filter email) jobs w).2 = w.
Proof.
  induction jobs as [| j jobs IH]; [reflexivity |]. simpl.
  rewrite run_bind, email_filter_run.
  destruct (job_resource j); [| done].
  rewrite run_bind.
  destruct (filterM (email_filter email) jobs w) as [[] w1]; simpl in *; by subst.
Qed.

(** X13.  One job that is not a job resource (its ['pubsubTarget'] or
    the ['attributes'] of it is not an object) makes a listing by email
    fail as a whole with [AttributeError].
    [src/appengine/classes/scheduler.py] raises it from [list_jobs];
    [src/classes/scheduler.py] returns the [filter] object, which raises
    it when it is read. *)
Theorem X13_odd_job `{Env} (project location email : pyval)
    (jobs : list pyval) (w w' : world) :
  truthy location = true → truthy email = true →
  while_True (CloudSchedulerClient.location_path project location) w = (Ret jobs, w') →
  Exists (λ j, job_resource j = false) jobs →
  Appengine.list_jobs project location email w = (Raise AttributeError, w') ∧
  Classes.list_jobs project location email w =
    (Ret (Classes.a_filter email jobs), w') ∧
  ∀ w'', Classes.elements (Classes.a_filter email jobs) w'' =
         (Raise AttributeError, w'').
Proof.
  intros Hl He Hloop Hodd.
  assert (Hb : truthy email && truthy (PList jobs) = true).
  { rewrite He. by destruct Hodd. }
  split; [| split].
  - rewrite appengine_list_jobs_run, Hloop, Hb by done.
    by apply filterM_raises.
  - unfold Classes.list_jobs. by rewrite run_bind, Hloop, Hb.
  - intros w''. by apply filterM_raises.
Qed.

Lemma X13_odd_job_witness :
  Appengine.list_jobs (H:=sample_env) (PStr "my-project") (PStr "europe-west1")
    (PStr "me@example.com") odd_listing =
  (Raise AttributeError,
   World [] [jobs_list "projects/my-project/locations/europe-west1" PNone]).
Proof.
  refine (proj1 (X13_odd_job (H:=sample_env) (PStr "my-project")
                   (PStr "europe-west1") (PStr "me@example.com")
                   [job_for "fetch-dv360-1" "me@example.com"; job_null_target]
                   odd_listing _ eq_refl eq_refl eq_refl _)).
  apply Exists_cons_tl, Exists_cons_hd. reflexivity.
Defined.

Lemma comprehension_with_email `{Env} {B} (f : pyval → M B) (email : pyval)
    (jobs : list pyval) :
  Forall (λ j, job_resource j = true) jobs →
  ∀ w, Classes.comprehension f email jobs w = mapM f (with_email email jobs) w.
Proof.
  induction 1 as [| j jobs Hj _ IH]; intros w; [reflexivity |].
  unfold with_email in *. simpl.
  rewrite run_bind, email_filter_run, Hj.
  destruct (py_eq (email_field j) email); [| apply IH].
  simpl. rewrite !run_bind.
  destruct (f j w) as [[y | e |] w1]; [| done | done].
  by rewrite !run_bind, IH.
Qed.

(** X14.  With the action ['list'] (and, in
    [src/appengine/classes/scheduler.py], the HTML output that is the
    default), the two modules return the same string for a listing of
    job resources: one line per job, for the jobs with the email of
    [args] when there is one.  The lazy [filter] of
    [src/classes/scheduler.py] and the list of the other module give
    the same lines. *)
Theorem X14_same_listing `{Env} (draw : N) (args : gmap string pyval)
    (locations : list pyval) (location : pyval) (script : list reply)
    (log : list request) (jobs : list pyval) (w' : world) :
  py_eq (dict_get args "action") (PStr "list") = true →
  truthy (dict_get_or args "html" (PBool true)) = true →
  last locations = Some location → truthy location = true →
  while_True
    (CloudSchedulerClient.location_path (dict_get args "project") location)
    (World script
       (log ++ [locations_list (Appengine.project_path (dict_get args "project"))])) =
    (Ret jobs, w') →
  Forall (λ j, job_resource j = true) jobs →
  let email := dict_get args "email" in
  let shown := if truthy email && truthy (PList jobs)
               then with_email email jobs else jobs in
  let w := World (Locations (Some locations) :: script) log in
  Appengine.process draw args w =
    (lines ← mapM job_line shown; ret (ReturnStr (String.concat "" lines))) w' ∧
  Classes.process draw args w = Appengine.process draw args w.
Proof.
  intros Hact Hhtml Hlast Hl Hloop Hjobs email shown w. subst email shown w.
  rewrite py_eq_str, eq_str_true in Hact.
  assert (Ha : Appengine.process draw args
                 (World (Locations (Some locations) :: script) log) =
               (lines ← mapM job_line
                          (if truthy (dict_get args "email") && truthy (PList jobs)
                           then with_email (dict_get args "email") jobs else jobs);
                ret (ReturnStr (String.concat "" lines))) w').
  { unfold Appengine.process. rewrite Hact, Hhtml. pick_action.
    rewrite run_bind, appengine_list_locations_run.
    rewrite run_bind, (last_item_run _ _ _ Hlast).
    rewrite run_bind, appengine_list_jobs_run, Hloop by done.
    destruct (truthy (dict_get args "email") && truthy (PList jobs)).
    - by rewrite filterM_with_email.
    - reflexivity. }
  split; [exact Ha |]. rewrite Ha.
  unfold Classes.process. rewrite Hact. pick_action.
  rewrite run_bind, classes_list_locations_run.
  rewrite run_bind, (last_item_run _ _ _ Hlast).
  rewrite run_bind. unfold Classes.list_jobs at 1.
  change (CloudSchedulerClient.project_path (dict_get args "project"))
    with (Appengine.project_path (dict_get args "project")).
  rewrite run_bind, Hloop.
  destruct (truthy (dict_get args "email") && truthy (PList jobs)).
  - unfold ret at 1, mret, M_ret. rewrite !run_bind.
    unfold Classes.for_each. by rewrite comprehension_with_email.
  - reflexivity.
Qed.

Lemma X14_same_listing_witness :
  Appengine.process (H:=sample_env) 0 args_list
    (World (two_locations :: replies sample_listing) []) =
  (Ret (ReturnStr ("fetch-dv360-1: No description.<br/>" +:+
                   "fetch-cm-3: No description.<br/>")),
   World []
     ([locations_list "projects/my-project"] ++ issued sample_listing_after)).
Proof.
  refine (proj1 (X14_same_listing (H:=sample_env) 0 args_list
                   [PStr "us-central1"; PStr "europe-west1"] (PStr "europe-west1")
                   (replies sample_listing) []
                   [job_for "fetch-dv360-1" "me@example.com"; job_http;
                    job_for "run-cm-2" "you@example.com";
                    job_for "fetch-cm-3" "me@example.com"]
                   (World [] ([locations_list "projects/my-project"] ++
                              issued sample_listing_after))
                   eq_refl eq_refl eq_refl eq_refl eq_refl _)).
  repeat constructor.
Defined.

(** X15.  The line of a job in the listing is
    ['{name}: {description}<br/>'].  A job without a ['name'] makes it
    raise [KeyError]; a job whose description is missing, [None] or
    empty is shown with ['No description.']. *)
Theorem X15_job_line `{Env} (job : gmap string pyval) (w : world) :
  match job !! "name" with
  | None => job_line (PDict job) w = (Raise KeyError, w)
  | Some name =>
      job_line (PDict job) w =
      (Ret (str name +:+ ": " +:+
            (if truthy (dict_get job "description")
             then str (dict_get job "description")
             else "No description.") +:+ "<br/>"), w)
  end.
Proof.
  unfold job_line, subscript. rewrite run_bind.
  destruct (job !! "name") as [name|]; [| reflexivity].
  unfold ret at 1, mret, M_ret, get_or. rewrite run_bind.
  unfold ret at 1, mret, M_ret, py_or, dict_get_or, dict_get.
  by destruct (truthy (default PNone (job !! "description"))).
Qed.

(** ** The paths of [Scheduler] *)

Lemma string_app_assoc (s1 s2 s3 : string) :
  (s1 +:+ s2) +:+ s3 = s1 +:+ (s2 +:+ s3).
Proof.
  induction s1 as [| a s1 IH]; [done |]. exact (f_equal (String a) IH).
Qed.

(** X16.  The path of a job extends the path of its location by
    ['/jobs/{job}'], the path of a location extends the path of its
    project by ['/locations/{location}'], and two job identifiers that
    differ have different paths in one location. *)
Theorem X16_paths `{Env} (project location : pyval) (job job' : string) :
  Appengine.job_path project location (PStr job) =
    Appengine.location_path project location +:+ "/jobs/" +:+ job ∧
  Appengine.location_path project location =
    Appengine.project_path project +:+ "/locations/" +:+ str location ∧
  (job ≠ job' →
   Appengine.job_path project location (PStr job) ≠
   Appengine.job_path project location (PStr job')).
Proof.
  unfold Appengine.job_path, Appengine.location_path, Appengine.project_path.
  split; [| split].
  - cbn [str]. by rewrite !string_app_assoc.
  - by rewrite !string_app_assoc.
  - intros Hne Heq. apply Hne. cbn [str] in Heq.
    by repeat apply String.app_inj in Heq.
Qed.

Lemma X16_paths_witness :
  Appengine.job_path (H:=sample_env) (PStr "my-project") (PStr "europe-west1")
    (PStr "fetch-dv360-1") ≠
  Appengine.job_path (H:=sample_env) (PStr "my-project") (PStr "europe-west1")
    (PStr "fetch-dv360-2").
Proof.
  refine (proj2 (proj2 (X16_paths (H:=sample_env) (PStr "my-project")
                          (PStr "europe-west1") "fetch-dv360-1" "fetch-dv360-2")) _).
  discriminate.
Defined.

(** ** What [list_jobs] sends *)

Lemma fetch_pages_sends (parent : string) (fuel : nat) :
  ∀ (token : pyval) (jobs : list pyval) (w : world),
    ∃ new, issued (fetch_pages fuel parent token jobs w).2 = issued w ++ new ∧
           Forall (lists parent) new ∧
           (fuel ≠ 0 → head new = Some (jobs_list parent token)).
Proof.
  induction fuel as [| fuel IH]; intros token jobs w.
  { exists []. by rewrite app_nil_r. }
  destruct w as [script log].
  assert (Hone : Forall (lists parent) [jobs_list parent token]).
  { repeat constructor. by exists token. }
  destruct script as [| [ls | js [next|] | body | content] script];
    try (exists [jobs_list parent token]; by repeat split).
  destruct (IH next (jobs ++ default [] js)
              (World script (log ++ [jobs_list parent token])))
    as (new & Hnew & Hlists & _).
  exists (jobs_list parent token :: new). split; [| split; [| done]].
  - change (issued (fetch_pages fuel parent next (jobs ++ default [] js)
                      (World script (log ++ [jobs_list parent token]))).2 =
            log ++ jobs_list parent token :: new).
    rewrite Hnew. cbn [issued]. by rewrite <- (assoc_L (++)).
  - constructor; [by exists token | done].
Qed.

(** X17.  Whatever the service answers, [list_jobs] only lists: every
    request that it sends is a list request for the jobs of the one
    location, and the first of them has the page token [None]. *)
Theorem X17_list_jobs_only_lists `{Env} (project location email : pyval)
    (w : world) :
  let parent := CloudSchedulerClient.location_path project location in
  (Forall (lists parent) (sent (Classes.list_jobs project location email) w) ∧
   head (sent (Classes.list_jobs project location email) w) =
     Some (jobs_list parent PNone)) ∧
  (truthy location = true →
   Forall (lists parent) (sent (Appengine.list_jobs project location email) w) ∧
   head (sent (Appengine.list_jobs project location email) w) =
     Some (jobs_list parent PNone)).
Proof.
  intros parent.
  destruct (fetch_pages_sends parent (S (length (replies w))) PNone [] w)
    as (new & Hnew & Hlists & Hhead).
  specialize (Hhead ltac:(done)).
  fold (while_True parent w) in Hnew.
  assert (Hc : sent (Classes.list_jobs project location email) w = new).
  { apply sent_new. unfold Classes.list_jobs. rewrite run_bind. fold parent.
    destruct (while_True parent w) as [[jobs | e |] w1]; [| done | done].
    by destruct (truthy email && truthy (PList jobs)). }
  split; [by rewrite Hc |]. intros Hl.
  assert (Ha : sent (Appengine.list_jobs project location email) w = new).
  { apply sent_new. rewrite appengine_list_jobs_run by done. fold parent.
    destruct (while_True parent w) as [[jobs | e |] w1]; [| done | done].
    destruct (truthy email && truthy (PList jobs)); [| done].
    by rewrite filterM_world. }
  by rewrite Ha.
Qed.

Lemma X17_list_jobs_only_lists_witness :
  Forall (lists "projects/my-project/locations/europe-west1")
    (sent (Appengine.list_jobs (H:=sample_env) (PStr "my-project")
             (PStr "europe-west1") (PStr "me@example.com"))
       (World [Jobs None (Some (PStr "page-2")); Failed (Some not_found)] [])).
Proof.
  exact (proj1 (proj2 (X17_list_jobs_only_lists (H:=sample_env)
                         (PStr "my-project") (PStr "europe-west1")
                         (PStr "me@example.com")
                         (World [Jobs None (Some (PStr "page-2"));
                                 Failed (Some not_found)] []))
                  eq_refl)).
Defined.
